(** * XAIApp automation bridge

    A shallow embedding of the automation command bridge:

    - [automation.ts]: the TypeScript facade in front of the native module;
    - [AutomationModule.kt], class [AutomationModule]: the React methods,
      which settle the caller's promise;
    - [AutomationModule.kt], class [AutomationService]: the accessibility
      service, which builds gestures, posts work to the main looper and
      talks to the framework.

    Kotlin lambdas that are stored (posted runnables, gesture result
    callbacks) are defunctionalised: a stored closure is a constructor
    holding what the closure captures, and a function runs its body.
    Everything the framework decides (whether a stroke or a gesture can be
    constructed, whether a gesture is taken, which node has focus, whether a
    node accepts an action, whether an activity can be started) is data of
    the world the code runs in, never fixed by the model. An exception that
    no one catches leaves the React method it was thrown in. *)

From Stdlib Require Import ZArith List Ascii String Bool Lia DecimalString.
Import ListNotations.
Open Scope string_scope.
Open Scope list_scope.
Open Scope Z_scope.

(** ** Numbers crossing the bridge

    The code never computes with a coordinate: it converts a JS number to a
    [Float] and stores it in a path. The types and the conversions are an
    interface; [Long] is [Z] (only compared, never added to). *)

Class Numbers : Type := {
  Double : Type;              (* JS number, Kotlin Double *)
  Float : Type;               (* Kotlin Float *)
  toFloat : Double -> Float;  (* Double.toFloat() *)
  toLong : Double -> Z;       (* Double.toLong() *)
  number : Z -> Double        (* an integer literal of the TypeScript source *)
}.

(** ** Promises

    [com.facebook.react.bridge.Promise] is known by identity; what the code
    does to one is the sequence of [resolve] and [reject] calls it makes. *)

Definition Promise := nat.
Bind Scope nat_scope with Promise.

Inductive Settlement : Type :=
| Resolved (value : bool)
| Rejected (code message : string).

(** The lambda [{ success -> promise.resolve(success) }], the only callback
    the module ever passes down; it captures the promise. *)
Inductive Callback : Type :=
| ResolveWith (promise : Promise).

(** ** Framework data *)

Record ClipData : Type := newPlainText {
  clipLabel : string;
  clipText : string
}.

Inductive NodeAction : Type :=
| ACTION_SET_TEXT (text : string)
| ACTION_PASTE.

Inductive Focus : Type := FOCUS_INPUT | FOCUS_ACCESSIBILITY.

(** A node answers [performAction] as it likes: set-text may depend on the
    text, paste on what the clipboard holds. *)
Record AccessibilityNodeInfo : Type := {
  nodeId : nat;
  acceptsSetText : string -> bool;
  acceptsPaste : option ClipData -> bool
}.

(** The root of the active window, with what [findFocus] finds in it. *)
Record Window : Type := {
  inputFocus : option AccessibilityNodeInfo;
  accessibilityFocus : option AccessibilityNodeInfo
}.

(** A connected [AutomationService]: [acceptsGesture n] is what the
    framework's [dispatchGesture] returns for the [n]-th gesture handed to
    it. *)
Record Service : Type := {
  serviceId : nat;
  rootInActiveWindow : option Window;
  acceptsGesture : nat -> bool
}.

Record Intent : Type := {
  intentAction : string;
  intentFlags : Z
}.

Inductive Try (A : Type) : Type :=
| Returned (a : A)
| Thrown (e : string).
Arguments Returned {A} a.
Arguments Thrown {A} e.

(** [ReactApplicationContext], as far as the module uses it. *)
Record ReactApplicationContext : Type := {
  getLaunchIntentForPackage : string -> Try (option Intent);
  startActivityThrows : Intent -> option string
}.

Definition ACTION_ACCESSIBILITY_SETTINGS : string :=
  "android.settings.ACCESSIBILITY_SETTINGS".
Definition FLAG_ACTIVITY_NEW_TASK : Z := 268435456.

Section Bridge.
Context {N : Numbers}.

(** ** Gestures *)

Inductive PathVerb : Type :=
| moveTo (x y : Float)
| lineTo (x y : Float).

(** [android.graphics.Path]: the verbs recorded on it, oldest first. *)
Definition Path : Type := list PathVerb.

Record StrokeDescription : Type := {
  strokePath : Path;
  strokeStartTime : Z;
  strokeDuration : Z
}.

(** [GestureDescription]: the strokes added to its builder. *)
Definition GestureDescription : Type := list StrokeDescription.

(** The anonymous [GestureResultCallback] object; it captures [callback]. *)
Inductive GestureResultCallback : Type :=
| ResultCallback (callback : Callback).

(** The two lambdas handed to [mainHandler.post]; each captures the service
    it was created on. *)
Inductive Runnable : Type :=
| RunDispatch (service : Service) (gesture : GestureDescription)
              (callback : Callback)
| RunPaste (service : Service) (text : string) (callback : Callback).

(** Calls made on the framework, oldest first. *)
Inductive ServiceCall : Type :=
| CallDispatchGesture (gesture : GestureDescription)
| CallFindFocus (focus : Focus)
| CallPerformAction (node : nat) (action : NodeAction)
| CallSetPrimaryClip (clip : ClipData)
| CallStartActivity (intent : Intent).

(** ** The world *)

Record World : Type := mkWorld {
  instance : option Service;                      (* companion [instance] *)
  mainLooper : list Runnable;                     (* posted, not yet run *)
  gestureCallbacks : list GestureResultCallback;  (* handed to dispatchGesture *)
  primaryClip : option ClipData;                  (* system clipboard *)
  serviceCalls : list ServiceCall;
  promiseCalls : list (Promise * Settlement)
}.

Definition M (A : Type) : Type := World -> A * World.

Definition ret {A} (a : A) : M A := fun w => (a, w).
Definition bind {A B} (c : M A) (k : A -> M B) : M B :=
  fun w => let (a, w') := c w in k a w'.

End Bridge.

Declare Scope bridge_scope.
Delimit Scope bridge_scope with bridge.
Notation "x <- c ;; k" := (bind c (fun x => k))
  (at level 61, c at next level, right associativity) : bridge_scope.
Notation "c ;; k" := (bind c (fun _ => k))
  (at level 61, right associativity) : bridge_scope.
Open Scope bridge_scope.

(** ** The gesture constructors

    [GestureDescription.StrokeDescription(path, startTime, duration)] and
    [GestureDescription.Builder.addStroke(stroke)] check their arguments and
    throw. What they refuse is the framework's to decide: each answers with
    the message of the exception it throws, if it throws. *)

Class Framework {N : Numbers} : Type := {
  strokeRefused : Path -> Z -> Z -> option string;
  addStrokeRefused :
    list StrokeDescription -> StrokeDescription -> option string
}.

Section Effects.
Context {N : Numbers}.

Definition logCall (c : ServiceCall) : M unit := fun w =>
  (tt, mkWorld (instance w) (mainLooper w) (gestureCallbacks w)
               (primaryClip w) (serviceCalls w ++ [c]) (promiseCalls w)).

Definition settle (p : Promise) (s : Settlement) : M unit := fun w =>
  (tt, mkWorld (instance w) (mainLooper w) (gestureCallbacks w)
               (primaryClip w) (serviceCalls w) (promiseCalls w ++ [(p, s)])).

(** [promise.resolve(value)] and [promise.reject(code, message)]. *)
Definition resolve (p : Promise) (value : bool) : M unit :=
  settle p (Resolved value).
Definition reject (p : Promise) (code message : string) : M unit :=
  settle p (Rejected code message).

(** Calling a [(Boolean) -> Unit]. *)
Definition invoke (callback : Callback) (success : bool) : M unit :=
  match callback with
  | ResolveWith promise => resolve promise success
  end.

(** [mainHandler.post { ... }] *)
Definition post (r : Runnable) : M unit := fun w =>
  (tt, mkWorld (instance w) (mainLooper w ++ [r]) (gestureCallbacks w)
               (primaryClip w) (serviceCalls w) (promiseCalls w)).

(** The framework's [dispatchGesture(gesture, callback, null)]: it is handed
    the callback object and answers whether the gesture was taken. *)
Definition dispatchGesture (service : Service) (gesture : GestureDescription)
    (callback : GestureResultCallback) : M bool := fun w =>
  (acceptsGesture service (List.length (gestureCallbacks w)),
   mkWorld (instance w) (mainLooper w) (gestureCallbacks w ++ [callback])
           (primaryClip w) (serviceCalls w ++ [CallDispatchGesture gesture])
           (promiseCalls w)).

(** [rootInActiveWindow?.findFocus(focus)]: without a root nothing is
    called. *)
Definition findFocus (service : Service) (focus : Focus)
    : M (option AccessibilityNodeInfo) :=
  match rootInActiveWindow service with
  | None => ret None
  | Some root =>
      logCall (CallFindFocus focus) ;;
      ret (match focus with
           | FOCUS_INPUT => inputFocus root
           | FOCUS_ACCESSIBILITY => accessibilityFocus root
           end)
  end.

(** [target.performAction(action, args)] *)
Definition performAction (target : AccessibilityNodeInfo) (action : NodeAction)
    : M bool := fun w =>
  let (_, w') := logCall (CallPerformAction (nodeId target) action) w in
  (match action with
   | ACTION_SET_TEXT text => acceptsSetText target text
   | ACTION_PASTE => acceptsPaste target (primaryClip w)
   end, w').

(** [clipboard.setPrimaryClip(clip)] *)
Definition setPrimaryClip (clip : ClipData) : M unit := fun w =>
  (tt, mkWorld (instance w) (mainLooper w) (gestureCallbacks w)
               (Some clip) (serviceCalls w ++ [CallSetPrimaryClip clip])
               (promiseCalls w)).

(** [appContext.startActivity(intent)], which may throw. *)
Definition startActivity (appContext : ReactApplicationContext)
    (intent : Intent) : M (Try unit) :=
  logCall (CallStartActivity intent) ;;
  ret (match startActivityThrows appContext intent with
       | None => Returned tt
       | Some e => Thrown e
       end).

End Effects.

(** ** [AutomationService] *)

Module AutomationService.
Section Service.
Context {N : Numbers} {F : Framework}.

(** Kotlin's [Long.coerceAtLeast]. *)
Definition coerceAtLeast (this minimumValue : Z) : Z :=
  if this <? minimumValue then minimumValue else this.

(** [GestureDescription.StrokeDescription(path, startTime, duration)] *)
Definition newStrokeDescription (path : Path) (startTime duration : Z)
    : Try StrokeDescription :=
  match strokeRefused path startTime duration with
  | Some e => Thrown e
  | None => Returned {| strokePath := path;
                        strokeStartTime := startTime;
                        strokeDuration := duration |}
  end.

(** [builder.addStroke(stroke)], on a builder holding [strokes]. *)
Definition addStroke (strokes : list StrokeDescription)
    (stroke : StrokeDescription) : Try (list StrokeDescription) :=
  match addStrokeRefused strokes stroke with
  | Some e => Thrown e
  | None => Returned (strokes ++ [stroke])
  end.

Definition buildGesture (path : Path) (durationMs : Z)
    : Try GestureDescription :=
  let safeDuration := coerceAtLeast durationMs 1 in
  match newStrokeDescription path 0 safeDuration with
  | Thrown e => Thrown e
  | Returned stroke => addStroke [] stroke
  end.

Definition gestureForTap (x y : Float) (durationMs : Z)
    : Try GestureDescription :=
  let path := [] ++ [moveTo x y] in
  buildGesture path durationMs.

Definition gestureForSwipe (startX startY endX endY : Float) (durationMs : Z)
    : Try GestureDescription :=
  let path := ([] ++ [moveTo startX startY]) ++ [lineTo endX endY] in
  buildGesture path durationMs.

(** The result callback object's two methods. *)
Definition onCompleted (o : GestureResultCallback) : M unit :=
  match o with ResultCallback callback => invoke callback true end.

Definition onCancelled (o : GestureResultCallback) : M unit :=
  match o with ResultCallback callback => invoke callback false end.

(** The runnable posted by [dispatchGestureWithCallback]. *)
Definition dispatchGestureWithCallback_posted (service : Service)
    (gesture : GestureDescription) (callback : Callback) : M unit :=
  accepted <- dispatchGesture service gesture (ResultCallback callback) ;;
  if negb accepted then invoke callback false else ret tt.

Definition dispatchGestureWithCallback (service : Service)
    (gesture : GestureDescription) (callback : Callback) : M unit :=
  post (RunDispatch service gesture callback).

(** The runnable posted by [pasteInternal]. *)
Definition pasteInternal_posted (service : Service) (text : string)
    (callback : Callback) : M unit :=
  target <-
    (byInput <- findFocus service FOCUS_INPUT ;;
     match byInput with
     | Some node => ret (Some node)
     | None => findFocus service FOCUS_ACCESSIBILITY
     end) ;;
  match target with
  | None => invoke callback false
  | Some target =>
      setOk <- performAction target (ACTION_SET_TEXT text) ;;
      if setOk then invoke callback true
      else
        setPrimaryClip (newPlainText "automation" text) ;;
        pasteOk <- performAction target ACTION_PASTE ;;
        invoke callback pasteOk
  end.

Definition pasteInternal (service : Service) (text : string)
    (callback : Callback) : M unit :=
  post (RunPaste service text callback).

(** Companion object. *)
Definition isRunning : M bool := fun w =>
  (match instance w with Some _ => true | None => false end, w).

(** An exception thrown inside [action] leaves [withService]. *)
Definition withService (action : Service -> M (Try unit)) : M (Try bool) :=
  fun w =>
  match instance w with
  | None => (Returned false, w)
  | Some service =>
      (done <- action service ;;
       ret match done with
           | Returned _ => Returned true
           | Thrown e => Thrown e
           end) w
  end.

(** The gesture is built before it is handed on; when building it throws,
    nothing is handed on. *)
Definition tap (x y : Float) (durationMs : Z) (callback : Callback)
    : M (Try bool) :=
  withService (fun service =>
    match gestureForTap x y durationMs with
    | Thrown e => ret (Thrown e)
    | Returned gesture =>
        dispatchGestureWithCallback service gesture callback ;;
        ret (Returned tt)
    end).

Definition swipe (startX startY endX endY : Float) (durationMs : Z)
    (callback : Callback) : M (Try bool) :=
  withService (fun service =>
    match gestureForSwipe startX startY endX endY durationMs with
    | Thrown e => ret (Thrown e)
    | Returned gesture =>
        dispatchGestureWithCallback service gesture callback ;;
        ret (Returned tt)
    end).

Definition pasteText (text : string) (callback : Callback) : M (Try bool) :=
  withService (fun service =>
    pasteInternal service text callback ;; ret (Returned tt)).

(** [onServiceConnected] and [onDestroy]. *)
Definition onServiceConnected (this : Service) : M unit := fun w =>
  (tt, mkWorld (Some this) (mainLooper w) (gestureCallbacks w)
               (primaryClip w) (serviceCalls w) (promiseCalls w)).

Definition onDestroy : M unit := fun w =>
  (tt, mkWorld None (mainLooper w) (gestureCallbacks w)
               (primaryClip w) (serviceCalls w) (promiseCalls w)).

End Service.
End AutomationService.

(** ** [AutomationModule] *)

Module AutomationModule.
Section Module.
Context {N : Numbers} {F : Framework}.
Variable appContext : ReactApplicationContext.

Definition SERVICE_NOT_RUNNING_MESSAGE : string :=
  "Accessibility service is not enabled, open settings to allow it.".

Definition isAccessibilityServiceRunning (promise : Promise) : M unit :=
  running <- AutomationService.isRunning ;;
  resolve promise running.

Definition openAccessibilitySettings (promise : Promise) : M unit :=
  let intent := {| intentAction := ACTION_ACCESSIBILITY_SETTINGS;
                   intentFlags := FLAG_ACTIVITY_NEW_TASK |} in
  started <- startActivity appContext intent ;;
  match started with
  | Returned _ => resolve promise true
  | Thrown e => reject promise "OPEN_SETTINGS_FAILED" e
  end.

Definition addFlags (intent : Intent) (flags : Z) : Intent :=
  {| intentAction := intentAction intent;
     intentFlags := Z.lor (intentFlags intent) flags |}.

Definition openApp (packageName : string) (promise : Promise) : M unit :=
  match getLaunchIntentForPackage appContext packageName with
  | Thrown e => reject promise "OPEN_APP_FAILED" e
  | Returned None => resolve promise false
  | Returned (Some launchIntent) =>
      started <- startActivity appContext
                   (addFlags launchIntent FLAG_ACTIVITY_NEW_TASK) ;;
      match started with
      | Returned _ => resolve promise true
      | Thrown e => reject promise "OPEN_APP_FAILED" e
      end
  end.

(** What follows [val started = ...]; an exception thrown before it leaves
    the method. *)
Definition rejectUnlessStarted (started : Try bool) (promise : Promise)
    : M (Try unit) :=
  match started with
  | Thrown e => ret (Thrown e)
  | Returned started =>
      if negb started
      then reject promise "SERVICE_NOT_RUNNING" SERVICE_NOT_RUNNING_MESSAGE ;;
           ret (Returned tt)
      else ret (Returned tt)
  end.

Definition tap (x y durationMs : Double) (promise : Promise)
    : M (Try unit) :=
  started <- AutomationService.tap (toFloat x) (toFloat y) (toLong durationMs)
               (ResolveWith promise) ;;
  rejectUnlessStarted started promise.

Definition swipe (startX startY endX endY durationMs : Double)
    (promise : Promise) : M (Try unit) :=
  started <- AutomationService.swipe (toFloat startX) (toFloat startY)
               (toFloat endX) (toFloat endY) (toLong durationMs)
               (ResolveWith promise) ;;
  rejectUnlessStarted started promise.

Definition pasteText (text : string) (promise : Promise) : M (Try unit) :=
  started <- AutomationService.pasteText text (ResolveWith promise) ;;
  rejectUnlessStarted started promise.

End Module.
End AutomationModule.

(** ** [automation.ts] *)

Module Automation.
Section Facade.
Context {N : Numbers}.

(** A method call on [NativeModules.AutomationModule], with its arguments. *)
Inductive NativeCall : Type :=
| isAccessibilityServiceRunning_
| openAccessibilitySettings_
| openApp_ (packageName : string)
| tap_ (x y durationMs : Double)
| swipe_ (startX startY endX endY durationMs : Double)
| pasteText_ (text : string).

(** What the module sees of its host: [Platform.OS], and whether
    [NativeModules.AutomationModule] is defined. *)
Record Host : Type := {
  PlatformOS : string;
  NativeModules_AutomationModule : bool
}.

(** The promise an [async] function returns: rejected with the error its body
    threw, or following the promise of the native call its body returned. *)
Inductive AsyncResult : Type :=
| RejectsWith (message : string)
| Follows (call : NativeCall).

(** [const nativeModule]: [true] stands for the module object, [false] for
    [null] or [undefined]. *)
Definition nativeModule (host : Host) : bool :=
  if String.eqb (PlatformOS host) "android"
  then NativeModules_AutomationModule host
  else false.

Definition UNAVAILABLE : string :=
  "自动化功能仅支持已开启无障碍的 Android 设备。".

Definition ensureAvailable (host : Host) : Try unit :=
  if negb (nativeModule host) then Thrown UNAVAILABLE else Returned tt.

(** [async function f(...) { return ensureAvailable().m(...) }] *)
Definition async (host : Host) (call : NativeCall) : AsyncResult :=
  match ensureAvailable host with
  | Thrown e => RejectsWith e
  | Returned _ => Follows call
  end.

Definition isServiceRunning (host : Host) : AsyncResult :=
  async host isAccessibilityServiceRunning_.

Definition openAccessibilitySettings (host : Host) : AsyncResult :=
  async host openAccessibilitySettings_.

Definition openApp (host : Host) (packageName : string) : AsyncResult :=
  async host (openApp_ packageName).

(** An omitted [durationMs] takes the default. *)
Definition tap (host : Host) (x y : Double) (durationMs : option Double)
    : AsyncResult :=
  let durationMs := match durationMs with
                    | Some d => d
                    | None => number 80
                    end in
  async host (tap_ x y durationMs).

Definition swipe (host : Host) (startX startY endX endY : Double)
    (durationMs : option Double) : AsyncResult :=
  let durationMs := match durationMs with
                    | Some d => d
                    | None => number 150
                    end in
  async host (swipe_ startX startY endX endY durationMs).

Definition pasteText (host : Host) (text : string) : AsyncResult :=
  async host (pasteText_ text).

(** The facade's operations, to quantify over them. *)
Inductive Operation : Type :=
| OpIsServiceRunning
| OpOpenAccessibilitySettings
| OpOpenApp (packageName : string)
| OpTap (x y : Double) (durationMs : option Double)
| OpSwipe (startX startY endX endY : Double) (durationMs : option Double)
| OpPasteText (text : string).

Definition perform (host : Host) (op : Operation) : AsyncResult :=
  match op with
  | OpIsServiceRunning => isServiceRunning host
  | OpOpenAccessibilitySettings => openAccessibilitySettings host
  | OpOpenApp packageName => openApp host packageName
  | OpTap x y durationMs => tap host x y durationMs
  | OpSwipe startX startY endX endY durationMs =>
      swipe host startX startY endX endY durationMs
  | OpPasteText text => pasteText host text
  end.

End Facade.
End Automation.

(** ** Running the bridge

    What happens around the code: React invokes a module method with the
    caller's promise, the main looper runs the oldest posted runnable, the
    framework reports on a gesture through the callback object it was handed,
    the system connects or destroys the service. *)

Section Semantics.
Context {N : Numbers} {F : Framework}.
Variable appContext : ReactApplicationContext.

Inductive Event : Type :=
| Invoke (call : Automation.NativeCall) (promise : Promise)
| MainLoop
| GestureCompleted (n : nat)
| GestureCancelled (n : nat)
| ServiceConnected (service : Service)
| ServiceDestroyed.

(** A React method called by the bridge: how it ends, and the world it
    leaves. *)
Definition invokeNative (call : Automation.NativeCall) (promise : Promise)
    : M (Try unit) :=
  match call with
  | Automation.isAccessibilityServiceRunning_ =>
      AutomationModule.isAccessibilityServiceRunning promise ;;
      ret (Returned tt)
  | Automation.openAccessibilitySettings_ =>
      AutomationModule.openAccessibilitySettings appContext promise ;;
      ret (Returned tt)
  | Automation.openApp_ packageName =>
      AutomationModule.openApp appContext packageName promise ;;
      ret (Returned tt)
  | Automation.tap_ x y durationMs =>
      AutomationModule.tap x y durationMs promise
  | Automation.swipe_ startX startY endX endY durationMs =>
      AutomationModule.swipe startX startY endX endY durationMs promise
  | Automation.pasteText_ text =>
      AutomationModule.pasteText text promise
  end.

Definition runRunnable (r : Runnable) : M unit :=
  match r with
  | RunDispatch service gesture callback =>
      AutomationService.dispatchGestureWithCallback_posted
        service gesture callback
  | RunPaste service text callback =>
      AutomationService.pasteInternal_posted service text callback
  end.

Definition mainLoop : M unit := fun w =>
  match mainLooper w with
  | [] => (tt, w)
  | r :: rest =>
      runRunnable r
        (mkWorld (instance w) rest (gestureCallbacks w) (primaryClip w)
                 (serviceCalls w) (promiseCalls w))
  end.

Definition report (n : nat) (method : GestureResultCallback -> M unit)
    : M unit := fun w =>
  match nth_error (gestureCallbacks w) n with
  | Some o => method o w
  | None => (tt, w)
  end.

Definition step (e : Event) : M unit :=
  match e with
  | Invoke call promise => invokeNative call promise ;; ret tt
  | MainLoop => mainLoop
  | GestureCompleted n => report n AutomationService.onCompleted
  | GestureCancelled n => report n AutomationService.onCancelled
  | ServiceConnected service => AutomationService.onServiceConnected service
  | ServiceDestroyed => AutomationService.onDestroy
  end.

Fixpoint run (es : list Event) (w : World) : World :=
  match es with
  | [] => w
  | e :: es => run es (snd (step e w))
  end.

End Semantics.

(** ** Observations *)

Section Observations.
Context {N : Numbers} {F : Framework}.

(** The calls made on one promise, oldest first. *)
Definition callsOn (p : Promise) (w : World) : list Settlement :=
  map snd (filter (fun c => Nat.eqb (fst c) p) (promiseCalls w)).

(** The calls the framework received between two worlds. *)
Definition isDispatch (c : ServiceCall) : bool :=
  match c with CallDispatchGesture _ => true | _ => false end.

Definition isInjection (c : ServiceCall) : bool :=
  match c with
  | CallPerformAction _ _ | CallSetPrimaryClip _ => true
  | _ => false
  end.

(** The points a path visits, in order. *)
Definition pathPoints (path : Path) : list (Float * Float) :=
  map (fun v => match v with moveTo x y | lineTo x y => (x, y) end) path.

(** The lines a path draws, each from the point the path is at to the
    point of the [lineTo]; [from] is the point the path is at, if it has been
    moved to one. *)
Fixpoint pathLines (from : option (Float * Float)) (path : Path)
    : list ((Float * Float) * (Float * Float)) :=
  match path with
  | [] => []
  | moveTo x y :: rest => pathLines (Some (x, y)) rest
  | lineTo x y :: rest =>
      match from with
      | Some start => (start, (x, y)) :: pathLines (Some (x, y)) rest
      | None => pathLines (Some (x, y)) rest
      end
  end.

(** The framework calls made from world [w] to the later world [w']. *)
Definition since (w w' : World) : list ServiceCall :=
  skipn (List.length (serviceCalls w)) (serviceCalls w').

(** The node [pasteInternal] ends up with, if any. *)
Definition focusedTarget (service : Service) : option AccessibilityNodeInfo :=
  match rootInActiveWindow service with
  | None => None
  | Some root =>
      match inputFocus root with
      | Some node => Some node
      | None => accessibilityFocus root
      end
  end.

(** The [findFocus] calls the target lookup makes. *)
Definition focusLookups (service : Service) : list ServiceCall :=
  match rootInActiveWindow service with
  | None => []
  | Some root =>
      CallFindFocus FOCUS_INPUT
        :: match inputFocus root with
           | Some _ => []
           | None => [CallFindFocus FOCUS_ACCESSIBILITY]
           end
  end.

(** The promise was resolved [true], and the last thing asked of the
    framework was [action] on [node], which is then the action that
    succeeded. *)
Definition succeedsVia (action : NodeAction) (node : AccessibilityNodeInfo)
    (p : Promise) (w w' : World) : Prop :=
  callsOn p w' = callsOn p w ++ [Resolved true] /\
  exists before,
    since w w' = before ++ [CallPerformAction (nodeId node) action].

(** Nothing changed but one more call on promise [p]. *)
Definition onlySettles (p : Promise) (s : Settlement) (w w' : World) : Prop :=
  instance w' = instance w /\
  mainLooper w' = mainLooper w /\
  gestureCallbacks w' = gestureCallbacks w /\
  primaryClip w' = primaryClip w /\
  serviceCalls w' = serviceCalls w /\
  promiseCalls w' = promiseCalls w ++ [(p, s)].


Definition needsService (call : Automation.NativeCall) : bool :=
  match call with
  | Automation.tap_ _ _ _ | Automation.swipe_ _ _ _ _ _
  | Automation.pasteText_ _ => true
  | _ => false
  end.

(** The gesture a native call asks for, when it can be built. *)
Definition gestureOf (call : Automation.NativeCall)
    : option GestureDescription :=
  match call with
  | Automation.tap_ x y durationMs =>
      match AutomationService.gestureForTap
              (toFloat x) (toFloat y) (toLong durationMs) with
      | Returned gesture => Some gesture
      | Thrown _ => None
      end
  | Automation.swipe_ startX startY endX endY durationMs =>
      match AutomationService.gestureForSwipe
              (toFloat startX) (toFloat startY) (toFloat endX) (toFloat endY)
              (toLong durationMs) with
      | Returned gesture => Some gesture
      | Thrown _ => None
      end
  | _ => None
  end.

Definition runnablePromise (r : Runnable) : Promise :=
  match r with
  | RunDispatch _ _ (ResolveWith p) | RunPaste _ _ (ResolveWith p) => p
  end.

Definition isRunDispatch (r : Runnable) : bool :=
  match r with RunDispatch _ _ _ => true | RunPaste _ _ _ => false end.

(** How many gesture submissions are waiting on the main looper. *)
Definition queuedDispatches (w : World) : nat :=
  List.length (filter isRunDispatch (mainLooper w)).

(** What the framework reports on a gesture it was handed. *)
Inductive Signal : Type := Completed | Cancelled.

(** The call a report makes on the promise behind the callback object. *)
Definition signalSettlement (s : Signal) : Settlement :=
  match s with
  | Completed => Resolved true
  | Cancelled => Resolved false
  end.

Definition signalEvent (n : nat) (s : Signal) : Event :=
  match s with
  | Completed => GestureCompleted n
  | Cancelled => GestureCancelled n
  end.

(** One command from call to reports: the call, the main looper running
    what was posted before it and then the command's own runnable, and the
    framework's reports on the command's callback object. *)
Definition commandIndex (w : World) : nat :=
  (List.length (gestureCallbacks w) + queuedDispatches w)%nat.

Definition commandSchedule (w : World) (call : Automation.NativeCall)
    (p : Promise) (signals : list Signal) : list Event :=
  Invoke call p
    :: repeat MainLoop (List.length (mainLooper w))
    ++ [MainLoop]
    ++ map (signalEvent (commandIndex w)) signals.

End Observations.

(** ** Concrete worlds

    Numbers that are integers, nodes and services that answer one way, and
    a world in which nothing has happened yet. *)

Definition integers : Numbers :=
  {| Double := Z; Float := Z; toFloat := fun d => d; toLong := fun d => d;
     number := fun z => z |}.

(** A framework that refuses what Android's documentation says the
    constructors refuse: a stroke whose duration is not positive, whose start
    time is negative, whose path is empty or has a negative bound, and a
    gesture of more than ten strokes or lasting more than 60000 ms.
    [negative] tells a coordinate that is not at least 0. *)
Definition androidFramework {N : Numbers} (negative : Float -> bool)
    : Framework :=
  {| strokeRefused := fun path startTime duration =>
       if duration <=? 0 then Some "Duration must be positive"
       else if startTime <? 0 then Some "Start time must not be negative"
       else if (List.length path =? 0)%nat then Some "Path is empty"
       else if existsb (fun v => match v with
                                 | moveTo x y | lineTo x y =>
                                     negative x || negative y
                                 end) path
            then Some "Path bounds must not be negative"
            else None;
     addStrokeRefused := fun strokes stroke =>
       if (10 <=? List.length strokes)%nat
       then Some "Attempting to add too many strokes to a gesture"
       else if 60000 <? fold_right Z.max 0
                          (map (fun s => strokeStartTime s + strokeDuration s)
                               (strokes ++ [stroke]))
            then Some "Gesture would exceed maximum duration with new stroke"
            else None |}.

#[global] Instance androidIntegers : Framework (N := integers) :=
  androidFramework (N := integers) (fun x => x <? 0).

(** The gestures of a tap and of a swipe over [integers], as built. *)
Definition tapAt (x y duration : Z) : GestureDescription (N := integers) :=
  [{| strokePath := [moveTo (N := integers) x y];
      strokeStartTime := 0; strokeDuration := duration |}].

Definition swipeAlong (startX startY endX endY duration : Z)
    : GestureDescription (N := integers) :=
  [{| strokePath := [moveTo (N := integers) startX startY;
                     lineTo (N := integers) endX endY];
      strokeStartTime := 0; strokeDuration := duration |}].

Definition editableNode : AccessibilityNodeInfo :=
  {| nodeId := 1; acceptsSetText := fun _ => true;
     acceptsPaste := fun _ => true |}.

Definition pasteOnlyNode : AccessibilityNodeInfo :=
  {| nodeId := 2; acceptsSetText := fun _ => false;
     acceptsPaste := fun _ => true |}.

Definition inertNode : AccessibilityNodeInfo :=
  {| nodeId := 3; acceptsSetText := fun _ => false;
     acceptsPaste := fun _ => false |}.

(** A service whose window gives [node] input focus and which answers every
    gesture with [accepts]. *)
Definition serviceWith (node : option AccessibilityNodeInfo) (accepts : bool)
    : Service :=
  {| serviceId := 0;
     rootInActiveWindow :=
       Some {| inputFocus := node; accessibilityFocus := None |};
     acceptsGesture := fun _ => accepts |}.

(** A service whose window has accessibility focus only. *)
Definition serviceWithAccessibilityFocus (node : AccessibilityNodeInfo)
    : Service :=
  {| serviceId := 0;
     rootInActiveWindow :=
       Some {| inputFocus := None; accessibilityFocus := Some node |};
     acceptsGesture := fun _ => true |}.

Definition idle (service : option Service) : World (N := integers) :=
  mkWorld service [] [] None [] [].

(** A context in which no package resolves and every activity starts, and
    one in which every package resolves and no activity starts. *)
Definition quietContext : ReactApplicationContext :=
  {| getLaunchIntentForPackage := fun _ => Returned None;
     startActivityThrows := fun _ => None |}.


(** ** Observations on whole runs *)

Section RunObservations.
Context {N : Numbers} {F : Framework}.

(** The promise an event brings with it, if it brings one. *)
Definition eventPromise (e : Event) : option Promise :=
  match e with
  | Invoke _ promise => Some promise
  | _ => None
  end.

Definition callbackObjectPromise (o : GestureResultCallback) : Promise :=
  match o with ResultCallback (ResolveWith p) => p end.

(** Promise [p] is held by nothing in the world: no waiting runnable and no
    callback object handed to the framework carries it. *)
Definition unheld (p : Promise) (w : World) : Prop :=
  Forall (fun r => runnablePromise r <> p) (mainLooper w) /\
  Forall (fun o => callbackObjectPromise o <> p) (gestureCallbacks w).

(** The callback object a report is made on. *)
Definition reportIndex (e : Event) : option nat :=
  match e with
  | GestureCompleted n | GestureCancelled n => Some n
  | _ => None
  end.

(** Promise [p] is held by no waiting runnable, and by a callback object only
    at the indices [pending] allows. *)
Definition heldOnlyAt (p : Promise) (pending : nat -> bool) (w : World)
    : Prop :=
  Forall (fun r => runnablePromise r <> p) (mainLooper w) /\
  forall n o,
    nth_error (gestureCallbacks w) n = Some o ->
    callbackObjectPromise o = p -> pending n = true.

(** An event that does not bring promise [p] and is no report on a callback
    object at an index [pending] allows. *)
Definition quietFor (p : Promise) (pending : nat -> bool) (e : Event) : Prop :=
  eventPromise e <> Some p /\
  forall n, reportIndex e = Some n -> pending n = false.

Definition isConnectionEvent (e : Event) : bool :=
  match e with
  | ServiceConnected _ | ServiceDestroyed => true
  | _ => false
  end.

(** The error codes the module rejects with. *)
Definition knownCode (code : string) : bool :=
  String.eqb code "SERVICE_NOT_RUNNING"
  || String.eqb code "OPEN_SETTINGS_FAILED"
  || String.eqb code "OPEN_APP_FAILED".

Definition knownSettlement (c : Promise * Settlement) : bool :=
  match snd c with
  | Resolved _ => true
  | Rejected code _ => knownCode code
  end.

Definition isRunPaste (r : Runnable) : bool :=
  match r with RunPaste _ _ _ => true | RunDispatch _ _ _ => false end.

Definition isPasteEvent (e : Event) : bool :=
  match e with
  | Invoke (Automation.pasteText_ _) _ => true
  | _ => false
  end.

(** What [pasteInternal] asks of its target once it has one: actions on that
    node, and the clipboard write. *)
Definition onTarget (target : AccessibilityNodeInfo) (c : ServiceCall) : bool :=
  match c with
  | CallPerformAction node _ => Nat.eqb node (nodeId target)
  | CallSetPrimaryClip _ => true
  | _ => false
  end.

End RunObservations.

(** ** The automation screen: the handlers that call the facade

    [AppContent] of the automation screen. A handler is run to its end: what
    it reads of the component's state are its arguments, what the promise it
    awaits settles to is an argument too, and what it does, in order, is its
    result. *)

(** What the handlers use of the JavaScript runtime. *)
Class JsRuntime {N : Numbers} : Type := {
  Number_ : string -> Double;       (* Number(s) *)
  Number_isNaN : Double -> bool;    (* Number.isNaN(x) *)
  String_ : Double -> string;       (* a number inside a template literal *)
  trim : string -> string           (* s.trim() *)
}.

Module AppContent.
Section Handlers.
Context {N : Numbers} {J : JsRuntime}.
Variable host : Automation.Host.

(** What an awaited promise settles to. *)
Inductive Awaited : Type :=
| Fulfilled (value : bool)
| Failed (error : string).

Inductive UiEffect : Type :=
| Alert_alert (title : string) (message : option string)
| setBusyAction (action : option string)
| setServiceEnabled (enabled : bool)
| setStatusText (text : string)
| console_error (label : string)
| await (op : Automation.Operation).

(** [await f(...)] on a facade function: the facade's own rejection, or what
    the native promise it follows settles to. *)
Definition awaited (op : Automation.Operation) (native : Awaited) : Awaited :=
  match Automation.perform host op with
  | Automation.RejectsWith e => Failed e
  | Automation.Follows _ => native
  end.

Definition ensureAndroid : bool * list UiEffect :=
  if negb (String.eqb (Automation.PlatformOS host) "android")
  then (false,
        [Alert_alert "仅支持 Android"
           (Some "跨应用自动化依赖 Android 无障碍接口，iOS 出于安全限制无法后台控制其他应用。")])
  else (true, []).

(** [setBusyAction(tag); try { ... await ... } catch { ... } finally
    { setBusyAction(null) }] *)
Definition guarded (tag : string) (op : Automation.Operation)
    (native : Awaited) (onValue : bool -> list UiEffect)
    (errorLabel errorStatus : string) : list UiEffect :=
  [setBusyAction (Some tag); await op]
    ++ match awaited op native with
       | Fulfilled value => onValue value
       | Failed _ => [console_error errorLabel; setStatusText errorStatus]
       end
    ++ [setBusyAction None].

Definition handleCheckService (native : Awaited) : list UiEffect :=
  let (android, shown) := ensureAndroid in
  if negb android then shown
  else
    shown
      ++ guarded "check" Automation.OpIsServiceRunning native
           (fun enabled =>
              [setServiceEnabled enabled;
               setStatusText
                 (if enabled
                  then "无障碍服务已开启，可直接发送点击/滑动。"
                  else "无障碍未开启，点击“打开无障碍设置”并启用 AIotApp 自动化服务。")])
           "检查无障碍状态失败"
           "无法获取无障碍状态，请在系统设置中确认。".

Definition handleOpenAccessibilitySettings (native : Awaited)
    : list UiEffect :=
  let (android, shown) := ensureAndroid in
  if negb android then shown
  else
    shown
      ++ guarded "settings" Automation.OpOpenAccessibilitySettings native
           (fun _ =>
              [setStatusText
                 "已跳转到无障碍设置，请启用 “AIotApp 自动化服务” 后返回。"])
           "打开无障碍设置失败"
           "无法打开无障碍设置，请手动前往 设置 > 无障碍。".

Definition handleOpenTargetApp (packageName : string) (native : Awaited)
    : list UiEffect :=
  let (android, shown) := ensureAndroid in
  if negb android then shown
  else
    let target := trim packageName in
    if String.eqb target ""
    then shown ++ [Alert_alert "请输入目标包名" (Some "示例：com.example.app")]
    else
      shown
        ++ guarded "openApp" (Automation.OpOpenApp target) native
             (fun opened =>
                [setStatusText
                   (if opened
                    then "已尝试启动 " ++ target
                         ++ "，若未跳转请确认已安装该 App。"
                    else "未找到 " ++ target ++ "，请确认包名或安装状态。")])
             "启动目标应用失败"
             "启动失败，请确认包名或权限。".

Definition handleTap (tapX tapY : string) (native : Awaited) : list UiEffect :=
  let (android, shown) := ensureAndroid in
  if negb android then shown
  else
    let x := Number_ tapX in
    let y := Number_ tapY in
    if Number_isNaN x || Number_isNaN y
    then shown ++ [Alert_alert "请输入有效的点击坐标" None]
    else
      shown
        ++ guarded "tap" (Automation.OpTap x y (Some (number 90))) native
             (fun ok =>
                [setStatusText
                   (if ok
                    then "已发送点击 (" ++ String_ x ++ ", " ++ String_ y
                         ++ ")，确保目标界面已打开。"
                    else "点击失败，请检查无障碍是否开启。")])
             "下发点击手势失败"
             "发送点击失败，请检查权限。".

Definition handleSwipe (swipeStartX swipeStartY swipeEndX swipeEndY : string)
    (native : Awaited) : list UiEffect :=
  let (android, shown) := ensureAndroid in
  if negb android then shown
  else
    let values :=
      map Number_ [swipeStartX; swipeStartY; swipeEndX; swipeEndY] in
    if existsb Number_isNaN values
    then shown ++ [Alert_alert "请输入有效的滑动坐标" None]
    else
      match values with
      | [sx; sy; ex; ey] =>
          shown
            ++ guarded "swipe"
                 (Automation.OpSwipe sx sy ex ey (Some (number 200))) native
                 (fun ok =>
                    [setStatusText
                       (if ok
                        then "已发送滑动 (" ++ String_ sx ++ ", " ++ String_ sy
                             ++ ") → (" ++ String_ ex ++ ", " ++ String_ ey
                             ++ ")，用于翻页/滚动等操作。"
                        else "滑动失败，检查无障碍权限。")])
                 "下发滑动手势失败"
                 "发送滑动失败，请检查权限。"
      | _ => shown
      end.

Definition handlePaste (textToPaste : string) (native : Awaited)
    : list UiEffect :=
  let (android, shown) := ensureAndroid in
  if negb android then shown
  else
    shown
      ++ guarded "paste" (Automation.OpPasteText textToPaste) native
           (fun ok =>
              [setStatusText
                 (if ok
                  then "已尝试粘贴到当前焦点输入框，请确保光标在目标输入框。"
                  else "粘贴失败，请确认无障碍权限已开启。")])
           "粘贴文本失败"
           "粘贴失败，请确认权限。".

(** The handlers with the state they read, to quantify over them. *)
Inductive Press : Type :=
| PressCheckService
| PressOpenAccessibilitySettings
| PressOpenTargetApp (packageName : string)
| PressTap (tapX tapY : string)
| PressSwipe (swipeStartX swipeStartY swipeEndX swipeEndY : string)
| PressPaste (textToPaste : string).

Definition handle (press : Press) (native : Awaited) : list UiEffect :=
  match press with
  | PressCheckService => handleCheckService native
  | PressOpenAccessibilitySettings => handleOpenAccessibilitySettings native
  | PressOpenTargetApp packageName => handleOpenTargetApp packageName native
  | PressTap tapX tapY => handleTap tapX tapY native
  | PressSwipe sx sy ex ey => handleSwipe sx sy ex ey native
  | PressPaste textToPaste => handlePaste textToPaste native
  end.

Definition isAwait (e : UiEffect) : bool :=
  match e with await _ => true | _ => false end.

Definition isStatus (e : UiEffect) : bool :=
  match e with setStatusText _ => true | _ => false end.

Definition isBusy (e : UiEffect) : bool :=
  match e with setBusyAction _ => true | _ => false end.

(** The promise the caller awaits takes the first call made on the native
    promise; a rejection arrives as an error with the rejection's message. *)
Definition settled (calls : list Settlement) : option Awaited :=
  match calls with
  | [] => None
  | Resolved value :: _ => Some (Fulfilled value)
  | Rejected _ message :: _ => Some (Failed message)
  end.

End Handlers.
End AppContent.

(** Numbers and a runtime for concrete runs of the handlers: a number is an
    integer or not a number, a numeral is a decimal integer, and trimming
    removes spaces. *)
Definition decimals : Numbers :=
  {| Double := option Z; Float := option Z;
     toFloat := fun d => d;
     toLong := fun d => match d with Some z => z | None => 0 end;
     number := fun z => Some z |}.

#[global] Instance androidDecimals : Framework (N := decimals) :=
  androidFramework (N := decimals)
    (fun x => match x with Some z => z <? 0 | None => true end).

Fixpoint dropSpaces (s : string) : string :=
  match s with
  | String " "%char rest => dropSpaces rest
  | _ => s
  end.

Fixpoint reverse (s acc : string) : string :=
  match s with
  | EmptyString => acc
  | String c rest => reverse rest (String c acc)
  end.

Definition decimalRuntime : JsRuntime (N := decimals) :=
  @Build_JsRuntime decimals
    (fun s => option_map Z.of_int (NilZero.int_of_string s))
    (fun d => match d with Some _ => false | None => true end)
    (fun d =>
       match d with
       | Some z => NilZero.string_of_int (Z.to_int z)
       | None => "NaN"
       end)
    (fun s => reverse (dropSpaces (reverse (dropSpaces s) "")) "").

(** A world over [integers] whose clipboard holds a clip, a world over
    [decimals] in which nothing has happened, and a context in which every
    package resolves and every activity starts. *)
Definition holding (clip : ClipData) (service : option Service)
    : World (N := integers) :=
  mkWorld service [] [] (Some clip) [] [].

Definition decimalIdle (service : option Service) : World (N := decimals) :=
  mkWorld service [] [] None [] [].

Definition launchingContext : ReactApplicationContext :=
  {| getLaunchIntentForPackage := fun packageName =>
       Returned (Some {| intentAction := "android.intent.action.MAIN";
                         intentFlags := 2097152 |});
     startActivityThrows := fun _ => None |}.

Definition androidHost : Automation.Host :=
  {| Automation.PlatformOS := "android";
     Automation.NativeModules_AutomationModule := true |}.


(** * Properties *)

(** ** The facade *)

Section FacadeFacts.
Context {N : Numbers} {F : Framework}.

Lemma nativeModule_off_android (host : Automation.Host) :
  Automation.PlatformOS host <> "android" ->
  Automation.nativeModule host = false.
Proof.
  intros Hos. unfold Automation.nativeModule.
  destruct (String.eqb_spec (Automation.PlatformOS host) "android") as [E | _].
  - contradiction.
  - reflexivity.
Qed.

Lemma async_off_android (host : Automation.Host) (call : Automation.NativeCall) :
  Automation.PlatformOS host <> "android" ->
  Automation.async host call = Automation.RejectsWith Automation.UNAVAILABLE.
Proof.
  intros Hos. unfold Automation.async, Automation.ensureAvailable.
  now rewrite (nativeModule_off_android host Hos).
Qed.

(** C10. Off Android every facade operation returns a promise rejected with
    the unavailability error, and none of them forwards a call to the native
    module. *)
Theorem facade_rejects_off_android
    (host : Automation.Host) (op : Automation.Operation) :
  Automation.PlatformOS host <> "android" ->
  Automation.perform host op = Automation.RejectsWith Automation.UNAVAILABLE /\
  forall call, Automation.perform host op <> Automation.Follows call.
Proof.
  intros Hos.
  assert (E : Automation.perform host op
              = Automation.RejectsWith Automation.UNAVAILABLE).
  { destruct op; cbn [Automation.perform];
      unfold Automation.isServiceRunning, Automation.openAccessibilitySettings,
        Automation.openApp, Automation.tap, Automation.swipe,
        Automation.pasteText;
      apply async_off_android; assumption. }
  split; [exact E | intros call; rewrite E; discriminate].
Qed.

End FacadeFacts.

Lemma facade_rejects_off_android_witness :
  Automation.perform (N := integers)
    {| Automation.PlatformOS := "ios";
       Automation.NativeModules_AutomationModule := true |}
    (Automation.OpTap (N := integers) 100 200 None)
  = Automation.RejectsWith Automation.UNAVAILABLE.
Proof.
  apply (facade_rejects_off_android (N := integers)
           {| Automation.PlatformOS := "ios";
              Automation.NativeModules_AutomationModule := true |}
           (Automation.OpTap (N := integers) 100 200 None)).
  discriminate.
Defined.

(** ** The gesture builder *)

Section GestureFacts.
Context {N : Numbers} {F : Framework}.

Lemma coerceAtLeast_low (d : Z) :
  d <= 0 -> AutomationService.coerceAtLeast d 1 = 1.
Proof.
  intros H. unfold AutomationService.coerceAtLeast.
  destruct (Z.ltb_spec d 1); [reflexivity | lia].
Qed.

Lemma coerceAtLeast_high (d : Z) :
  1 <= d -> AutomationService.coerceAtLeast d 1 = d.
Proof.
  intros H. unfold AutomationService.coerceAtLeast.
  destruct (Z.ltb_spec d 1); [lia | reflexivity].
Qed.

(** The gesture the builder returns when the framework refuses nothing. *)
Lemma buildGesture_returned (path : Path) (d : Z) (g : GestureDescription) :
  AutomationService.buildGesture path d = Returned g ->
  g = [{| strokePath := path; strokeStartTime := 0;
          strokeDuration := AutomationService.coerceAtLeast d 1 |}].
Proof.
  unfold AutomationService.buildGesture, AutomationService.newStrokeDescription,
    AutomationService.addStroke.
  destruct (strokeRefused path 0 _); [discriminate |].
  destruct (addStrokeRefused [] _); [discriminate |].
  intros E. injection E as <-. reflexivity.
Qed.

(** C6, amended. A duration of zero or less is built as 1 and a duration of
    at least 1 as it is. The code turns no duration away itself: the builder
    throws only when the framework's constructors, asked with the coerced
    duration, throw. With a service connected, [tap] and [swipe] then throw
    and leave the world as it is; otherwise they post a gesture of one stroke,
    from time 0, on the path of the call and with the coerced duration. *)
Theorem duration_coerced (path : Path) (d : Z) :
  let safe := AutomationService.coerceAtLeast d 1 in
  let strokeOn := fun on => {| strokePath := on; strokeStartTime := 0;
                               strokeDuration := safe |} in
  (d <= 0 -> safe = 1) /\
  (1 <= d -> safe = d) /\
  (forall g,
     AutomationService.buildGesture path d = Returned g ->
     g = [strokeOn path]) /\
  (forall e,
     AutomationService.buildGesture path d = Thrown e ->
     strokeRefused path 0 safe = Some e \/
     addStrokeRefused [] (strokeOn path) = Some e) /\
  (strokeRefused path 0 safe = None ->
   addStrokeRefused [] (strokeOn path) = None ->
   AutomationService.buildGesture path d = Returned [strokeOn path]) /\
  (forall service w x y callback,
     instance w = Some service ->
     match AutomationService.gestureForTap x y d with
     | Returned _ =>
         AutomationService.tap x y d callback w
         = (Returned true,
            snd (post (RunDispatch service [strokeOn [moveTo x y]] callback)
                   w))
     | Thrown e => AutomationService.tap x y d callback w = (Thrown e, w)
     end) /\
  (forall service w startX startY endX endY callback,
     instance w = Some service ->
     match AutomationService.gestureForSwipe startX startY endX endY d with
     | Returned _ =>
         AutomationService.swipe startX startY endX endY d callback w
         = (Returned true,
            snd (post (RunDispatch service
                         [strokeOn [moveTo startX startY; lineTo endX endY]]
                         callback) w))
     | Thrown e =>
         AutomationService.swipe startX startY endX endY d callback w
         = (Thrown e, w)
     end).
Proof.
  intros safe strokeOn.
  split; [apply coerceAtLeast_low |].
  split; [apply coerceAtLeast_high |].
  split; [apply buildGesture_returned |].
  split.
  { unfold AutomationService.buildGesture,
      AutomationService.newStrokeDescription, AutomationService.addStroke.
    fold safe. intros e.
    destruct (strokeRefused path 0 safe) as [e1 |].
    - intros E. injection E as <-. now left.
    - fold (strokeOn path).
      destruct (addStrokeRefused [] (strokeOn path)) as [e2 |];
        [| discriminate].
      intros E. injection E as <-. now right. }
  split.
  { intros Hs Ha.
    unfold AutomationService.buildGesture,
      AutomationService.newStrokeDescription, AutomationService.addStroke.
    fold safe. rewrite Hs. fold (strokeOn path). rewrite Ha. reflexivity. }
  split.
  - intros service [i q g c sc pc] x y callback Hi. cbn in Hi. subst i.
    unfold AutomationService.tap, AutomationService.withService.
    cbn [instance].
    destruct (AutomationService.gestureForTap x y d) as [gesture | e] eqn:Eg.
    + apply buildGesture_returned in Eg. subst gesture. reflexivity.
    + reflexivity.
  - intros service [i q g c sc pc] startX startY endX endY callback Hi.
    cbn in Hi. subst i.
    unfold AutomationService.swipe, AutomationService.withService.
    cbn [instance].
    destruct (AutomationService.gestureForSwipe startX startY endX endY d)
      as [gesture | e] eqn:Eg.
    + apply buildGesture_returned in Eg. subst gesture. reflexivity.
    + reflexivity.
Qed.

(** C7, amended. The tap's path is the one point moved to; the path of a
    swipe from that point to itself is the tap's path followed by one line
    to the same point. Both visit only that point, the tap draws no line and
    the swipe draws one, of no length; built, both are one stroke from time
    0 with the same duration. *)
Theorem swipe_in_place_extends_tap (x y : Float) (d : Z) :
  let tapPath := [moveTo x y] in
  let swipePath := tapPath ++ [lineTo x y] in
  let safe := AutomationService.coerceAtLeast d 1 in
  AutomationService.gestureForTap x y d
  = AutomationService.buildGesture tapPath d /\
  AutomationService.gestureForSwipe x y x y d
  = AutomationService.buildGesture swipePath d /\
  (forall g,
     AutomationService.gestureForTap x y d = Returned g ->
     g = [{| strokePath := tapPath; strokeStartTime := 0;
             strokeDuration := safe |}]) /\
  (forall g,
     AutomationService.gestureForSwipe x y x y d = Returned g ->
     g = [{| strokePath := swipePath; strokeStartTime := 0;
             strokeDuration := safe |}]) /\
  pathPoints tapPath = [(x, y)] /\
  pathPoints swipePath = [(x, y); (x, y)] /\
  pathLines None tapPath = [] /\
  pathLines None swipePath = [((x, y), (x, y))].
Proof.
  cbv zeta. repeat split.
  - intros g Hg. now apply buildGesture_returned in Hg.
  - intros g Hg. now apply buildGesture_returned in Hg.
Qed.

End GestureFacts.

Lemma duration_coerced_witness :
  AutomationService.buildGesture [moveTo (N := integers) 1 1] (-5)
  = Returned [{| strokePath := [moveTo (N := integers) 1 1];
                 strokeStartTime := 0; strokeDuration := 1 |}] /\
  AutomationService.coerceAtLeast 50 1 = 50 /\
  AutomationService.tap (N := integers) 1 1 0 (ResolveWith 0)
    (idle (Some (serviceWith None true)))
  = (Returned true,
     snd (post (RunDispatch (serviceWith None true)
                  [{| strokePath := [moveTo (N := integers) 1 1];
                      strokeStartTime := 0; strokeDuration := 1 |}]
                  (ResolveWith 0))
            (idle (Some (serviceWith None true))))).
Proof.
  split; [| split].
  - destruct (duration_coerced [moveTo (N := integers) 1 1] (-5))
      as (_ & _ & _ & _ & Hbuilt & _).
    apply Hbuilt; reflexivity.
  - apply (duration_coerced [moveTo (N := integers) 1 1] 50). lia.
  - destruct (duration_coerced [moveTo (N := integers) 1 1] 0)
      as (_ & _ & _ & _ & _ & Htap & _).
    exact (Htap (serviceWith None true) (idle (Some (serviceWith None true)))
             1 1 (ResolveWith 0) eq_refl).
Defined.

(** C6 as stated fails: the code puts no upper bound on the duration, and a
    tap of 70000 ms is refused by the framework when the gesture is built;
    the tap throws, posts nothing and calls no promise. *)
Lemma long_duration_is_refused :
  AutomationService.buildGesture [moveTo (N := integers) 1 1] 70000
  = Thrown "Gesture would exceed maximum duration with new stroke" /\
  run quietContext [Invoke (Automation.tap_ (N := integers) 1 1 70000) 0]
    (idle (Some (serviceWith None true)))
  = idle (Some (serviceWith None true)).
Proof. split; reflexivity. Qed.

Lemma swipe_in_place_extends_tap_witness :
  AutomationService.gestureForSwipe (N := integers) 3 4 3 4 50
  = Returned [{| strokePath := [moveTo (N := integers) 3 4; lineTo (N := integers) 3 4];
                 strokeStartTime := 0; strokeDuration := 50 |}].
Proof.
  destruct (swipe_in_place_extends_tap (N := integers) 3 4 50)
    as (_ & _ & _ & Hswipe & _).
  destruct (AutomationService.gestureForSwipe (N := integers) 3 4 3 4 50)
    as [g | e] eqn:Eg.
  - f_equal. exact (Hswipe g eq_refl).
  - discriminate Eg.
Defined.

(** C7 as stated fails: [swipe(0,0,0,0,100)] builds a path of two verbs,
    [tap(0,0,100)] a path of one. *)
Lemma swipe_in_place_is_not_tap :
  AutomationService.gestureForSwipe (N := integers) 0 0 0 0 100
  <> AutomationService.gestureForTap (N := integers) 0 0 100.
Proof. discriminate. Qed.

(** ** Promise calls and framework calls *)

Section WorldFacts.
Context {N : Numbers} {F : Framework}.

Lemma skipn_length_app {A} (l r : list A) :
  skipn (List.length l) (l ++ r) = r.
Proof. induction l as [| a l IH]; [reflexivity | exact IH]. Qed.

Lemma since_app (w w' : World) (new : list ServiceCall) :
  serviceCalls w' = serviceCalls w ++ new -> since w w' = new.
Proof. intros E. unfold since. rewrite E. apply skipn_length_app. Qed.

Lemma since_mk i q g c sc pc i' q' g' c' pc' (new : list ServiceCall) :
  since (mkWorld i q g c sc pc) (mkWorld i' q' g' c' (sc ++ new) pc') = new.
Proof. now apply since_app. Qed.

Lemma callsOn_snoc (p : Promise) (s : Settlement)
    i q g c sc i' q' g' c' sc' (pc : list (Promise * Settlement)) :
  callsOn p (mkWorld i' q' g' c' sc' (pc ++ [(p, s)]))
  = callsOn p (mkWorld i q g c sc pc) ++ [s].
Proof.
  unfold callsOn. cbn [promiseCalls].
  rewrite filter_app, map_app. cbn [filter fst].
  now rewrite Nat.eqb_refl.
Qed.

Lemma callsOn_snoc_other (p p' : Promise) (s : Settlement)
    i q g c sc i' q' g' c' sc' (pc : list (Promise * Settlement)) :
  p' <> p ->
  callsOn p (mkWorld i' q' g' c' sc' (pc ++ [(p', s)]))
  = callsOn p (mkWorld i q g c sc pc).
Proof.
  intros Hne. unfold callsOn. cbn [promiseCalls].
  rewrite filter_app, map_app. cbn [filter fst].
  destruct (Nat.eqb_spec p' p) as [E | _]; [contradiction |].
  cbn [map]. now rewrite app_nil_r.
Qed.

Lemma callsOn_same_calls (p : Promise) (w w' : World) :
  promiseCalls w' = promiseCalls w -> callsOn p w' = callsOn p w.
Proof. intros E. unfold callsOn. now rewrite E. Qed.

(** The world the paste runnable leaves behind. *)
Lemma pasteInternal_posted_world
    (service : Service) (text : string) (p : Promise) (w : World) :
  snd (AutomationService.pasteInternal_posted service text (ResolveWith p) w)
  = match focusedTarget service with
    | None =>
        mkWorld (instance w) (mainLooper w) (gestureCallbacks w)
          (primaryClip w)
          (serviceCalls w ++ focusLookups service)
          (promiseCalls w ++ [(p, Resolved false)])
    | Some target =>
        let clip := newPlainText "automation" text in
        if acceptsSetText target text
        then
          mkWorld (instance w) (mainLooper w) (gestureCallbacks w)
            (primaryClip w)
            (serviceCalls w ++ focusLookups service
               ++ [CallPerformAction (nodeId target) (ACTION_SET_TEXT text)])
            (promiseCalls w ++ [(p, Resolved true)])
        else
          mkWorld (instance w) (mainLooper w) (gestureCallbacks w)
            (Some clip)
            (serviceCalls w ++ focusLookups service
               ++ [CallPerformAction (nodeId target) (ACTION_SET_TEXT text);
                   CallSetPrimaryClip clip;
                   CallPerformAction (nodeId target) ACTION_PASTE])
            (promiseCalls w ++ [(p, Resolved (acceptsPaste target (Some clip)))])
    end.
Proof.
  destruct w as [i q g c sc pc].
  unfold AutomationService.pasteInternal_posted, focusedTarget, focusLookups,
    findFocus.
  destruct (rootInActiveWindow service) as [root |].
  - destruct (inputFocus root) as [node |].
    + cbn. destruct (acceptsSetText node text); cbn;
        rewrite <- ?app_assoc; reflexivity.
    + destruct (accessibilityFocus root) as [node |].
      * cbn. destruct (acceptsSetText node text); cbn;
          rewrite <- ?app_assoc; reflexivity.
      * cbn. rewrite <- ?app_assoc. reflexivity.
  - cbn. now rewrite app_nil_r.
Qed.

End WorldFacts.

(** ** The text injection resolver *)

Section PasteFacts.
Context {N : Numbers} {F : Framework}.

Lemma focusLookups_are_lookups (service : Service) (c : ServiceCall) :
  In c (focusLookups service) -> exists focus, c = CallFindFocus focus.
Proof.
  unfold focusLookups.
  destruct (rootInActiveWindow service) as [root |]; [| intros []].
  destruct (inputFocus root); cbn; intros H;
    repeat destruct H as [H | H]; try contradiction; eauto.
Qed.

Lemma focusLookups_no_injection (service : Service) :
  filter isInjection (focusLookups service) = [].
Proof.
  unfold focusLookups.
  destruct (rootInActiveWindow service) as [root |]; [| reflexivity].
  destruct (inputFocus root); reflexivity.
Qed.

Lemma last_call_determined {A} (l l' : list A) (a b : A) :
  l ++ [a] = l' ++ [b] -> a = b.
Proof. intros E. now apply app_inj_tail in E. Qed.

(** The paste runnable, with a focused target: it succeeds through the paste
    action exactly when the target refused set-text and accepted paste; the
    clipboard then holds the injected text; when both are refused the promise
    is resolved [false]. *)
Lemma paste_posted_through_clipboard
    (service : Service) (text : string) (p : Promise) (w : World)
    (target : AccessibilityNodeInfo) :
  focusedTarget service = Some target ->
  let clip := newPlainText "automation" text in
  let w' := snd (AutomationService.pasteInternal_posted
                   service text (ResolveWith p) w) in
  (succeedsVia ACTION_PASTE target p w w' <->
   acceptsSetText target text = false /\
   acceptsPaste target (Some clip) = true) /\
  (acceptsSetText target text = false ->
   acceptsPaste target (Some clip) = true ->
   primaryClip w' = Some clip /\ clipText clip = text) /\
  (acceptsSetText target text = false ->
   acceptsPaste target (Some clip) = false ->
   callsOn p w' = callsOn p w ++ [Resolved false] /\
   exists before,
     since w w' = before ++ [CallPerformAction (nodeId target) ACTION_PASTE]).
Proof.
  intros Ht clip w'.
  assert (Ew : w' = snd (AutomationService.pasteInternal_posted
                           service text (ResolveWith p) w)) by reflexivity.
  rewrite pasteInternal_posted_world, Ht in Ew. cbv zeta in Ew.
  fold clip in Ew. clearbody w'.
  destruct w as [i q g c sc pc].
  destruct (acceptsSetText target text) eqn:Eset;
    [| destruct (acceptsPaste target (Some clip)) eqn:Epaste];
    subst w'; cbn [instance mainLooper gestureCallbacks primaryClip
                   serviceCalls promiseCalls] in *.
  - (* set-text accepted *)
    split; [split | split].
    + intros [_ [before Hs]].
      rewrite since_mk in Hs.
      apply last_call_determined in Hs. discriminate.
    + intros [Hf _]. discriminate.
    + intros Hf. discriminate.
    + intros Hf. discriminate.
  - (* set-text refused, paste accepted *)
    assert (Hlast : exists before,
               since (mkWorld i q g c sc pc)
                 (mkWorld i q g (Some clip)
                    (sc ++ focusLookups service
                       ++ [CallPerformAction (nodeId target)
                             (ACTION_SET_TEXT text);
                           CallSetPrimaryClip clip;
                           CallPerformAction (nodeId target) ACTION_PASTE])
                    (pc ++ [(p, Resolved true)]))
               = before ++ [CallPerformAction (nodeId target) ACTION_PASTE]).
    { exists (focusLookups service
              ++ [CallPerformAction (nodeId target) (ACTION_SET_TEXT text);
                  CallSetPrimaryClip clip]).
      rewrite since_mk, <- app_assoc. reflexivity. }
    split; [split | split].
    + intros _. split; reflexivity.
    + intros _. split; [apply callsOn_snoc | exact Hlast].
    + intros _ _. split; reflexivity.
    + intros _ Hf. discriminate.
  - (* both refused *)
    split; [split | split].
    + intros [Hc _]. rewrite (callsOn_snoc p _ i q g c sc) in Hc.
      apply app_inv_head in Hc. discriminate.
    + intros [_ Hf]. discriminate.
    + intros _ Hf. discriminate.
    + intros _ _. split; [apply callsOn_snoc |].
      exists (focusLookups service
              ++ [CallPerformAction (nodeId target) (ACTION_SET_TEXT text);
                  CallSetPrimaryClip clip]).
      rewrite since_mk, <- app_assoc. reflexivity.
Qed.

(** The paste runnable, with a focused target that accepts set-text: it
    succeeds through set-text, the clipboard keeps what it held, and the clipboard is
    never written. *)
Lemma paste_posted_through_set_text
    (service : Service) (text : string) (p : Promise) (w : World)
    (target : AccessibilityNodeInfo) :
  focusedTarget service = Some target ->
  acceptsSetText target text = true ->
  let w' := snd (AutomationService.pasteInternal_posted
                   service text (ResolveWith p) w) in
  succeedsVia (ACTION_SET_TEXT text) target p w w' /\
  primaryClip w' = primaryClip w /\
  forall clip, ~ In (CallSetPrimaryClip clip) (since w w').
Proof.
  intros Ht Hset w'.
  assert (Ew : w' = snd (AutomationService.pasteInternal_posted
                           service text (ResolveWith p) w)) by reflexivity.
  rewrite pasteInternal_posted_world, Ht in Ew. cbv zeta in Ew.
  rewrite Hset in Ew. clearbody w'. subst w'.
  destruct w as [i q g c sc pc].
  cbn [primaryClip]. repeat split.
  - apply callsOn_snoc.
  - exists (focusLookups service). now rewrite since_mk.
  - intros clip. rewrite since_mk.
    intros Hin. apply in_app_or in Hin. destruct Hin as [Hin | Hin].
    + apply focusLookups_are_lookups in Hin. destruct Hin as [f Hf].
      discriminate.
    + destruct Hin as [Hin | []]. discriminate.
Qed.

(** The paste runnable's lookup asks for input focus first and uses the node
    found; it
    asks for accessibility focus only when there is no input focus; when
    there is neither, the promise is resolved [false], the clipboard keeps
    what it held, and no set-text, clipboard write or paste is attempted. *)
Lemma paste_posted_target_lookup
    (service : Service) (text : string) (p : Promise) (w : World) :
  let w' := snd (AutomationService.pasteInternal_posted
                   service text (ResolveWith p) w) in
  (forall root node,
     rootInActiveWindow service = Some root ->
     inputFocus root = Some node ->
     ~ In (CallFindFocus FOCUS_ACCESSIBILITY) (since w w') /\
     exists rest,
       since w w'
       = CallFindFocus FOCUS_INPUT
           :: CallPerformAction (nodeId node) (ACTION_SET_TEXT text) :: rest) /\
  (forall root node,
     rootInActiveWindow service = Some root ->
     inputFocus root = None ->
     accessibilityFocus root = Some node ->
     exists rest,
       since w w'
       = CallFindFocus FOCUS_INPUT :: CallFindFocus FOCUS_ACCESSIBILITY
           :: CallPerformAction (nodeId node) (ACTION_SET_TEXT text) :: rest) /\
  ((forall root,
      rootInActiveWindow service = Some root ->
      inputFocus root = None /\ accessibilityFocus root = None) ->
   callsOn p w' = callsOn p w ++ [Resolved false] /\
   primaryClip w' = primaryClip w /\
   filter isInjection (since w w') = []).
Proof.
  intros w'.
  assert (Ew : w' = snd (AutomationService.pasteInternal_posted
                           service text (ResolveWith p) w)) by reflexivity.
  rewrite pasteInternal_posted_world in Ew. clearbody w'.
  destruct w as [i q g c sc pc].
  unfold focusedTarget, focusLookups in Ew.
  split; [| split].
  - intros root node Hroot Hin. rewrite Hroot, Hin in Ew. cbv zeta in Ew.
    destruct (acceptsSetText node text); subst w';
      rewrite since_mk; cbn [app]; split;
      try (eexists; reflexivity);
      cbn; intros H; repeat destruct H as [H | H];
      try discriminate; contradiction.
  - intros root node Hroot Hin Hacc. rewrite Hroot, Hin, Hacc in Ew.
    cbv zeta in Ew.
    destruct (acceptsSetText node text); subst w';
      rewrite since_mk; cbn [app]; eexists; reflexivity.
  - intros Hnone.
    destruct (rootInActiveWindow service) as [root |].
    + destruct (Hnone root eq_refl) as [Hin Hacc].
      rewrite Hin, Hacc in Ew. subst w'.
      rewrite since_mk. cbn [primaryClip].
      repeat split. apply callsOn_snoc.
    + subst w'. rewrite since_mk. cbn [primaryClip].
      repeat split. apply callsOn_snoc.
Qed.

End PasteFacts.

(** ** Running a command *)

Section CommandFacts.
Context {N : Numbers} {F : Framework}.
Variable appContext : ReactApplicationContext.

Lemma run_app (es es' : list Event) (w : World) :
  run appContext (es ++ es') w = run appContext es' (run appContext es w).
Proof.
  revert w. induction es as [| e es IH]; intros w; [reflexivity |].
  cbn [app run]. apply IH.
Qed.

(** An exception that leaves a React method changes nothing further. *)
Lemma step_invoke (call : Automation.NativeCall) (p : Promise) (w : World) :
  snd (step appContext (Invoke call p) w)
  = snd (invokeNative appContext call p w).
Proof.
  cbn [step]. unfold bind. destruct (invokeNative appContext call p w).
  reflexivity.
Qed.

Lemma invoke_without_service
    (call : Automation.NativeCall) (p : Promise) (w : World) :
  instance w = None ->
  needsService call = true ->
  snd (invokeNative appContext call p w)
  = snd (reject p "SERVICE_NOT_RUNNING"
           AutomationModule.SERVICE_NOT_RUNNING_MESSAGE w).
Proof.
  intros Hi Hn. destruct w as [i q g c sc pc]. cbn in Hi. subst i.
  destruct call; try discriminate; reflexivity.
Qed.

Lemma invoke_gesture_posts
    (call : Automation.NativeCall) (gesture : GestureDescription)
    (service : Service) (p : Promise) (w : World) :
  instance w = Some service ->
  gestureOf call = Some gesture ->
  snd (invokeNative appContext call p w)
  = snd (post (RunDispatch service gesture (ResolveWith p)) w).
Proof.
  intros Hi Hg. destruct w as [i q g c sc pc]. cbn in Hi. subst i.
  destruct call; try discriminate; cbn [gestureOf] in Hg;
    cbn [invokeNative];
    unfold AutomationModule.tap, AutomationModule.swipe,
      AutomationService.tap, AutomationService.swipe,
      AutomationService.withService, bind;
    cbn [instance];
    match type of Hg with
    | match ?b with _ => _ end = _ => destruct b; [| discriminate]
    end;
    injection Hg as <-; reflexivity.
Qed.

Lemma invoke_paste_posts
    (text : string) (service : Service) (p : Promise) (w : World) :
  instance w = Some service ->
  snd (invokeNative appContext (Automation.pasteText_ text) p w)
  = snd (post (RunPaste service text (ResolveWith p)) w).
Proof.
  intros Hi. destruct w as [i q g c sc pc]. cbn in Hi. subst i. reflexivity.
Qed.

Lemma invoke_gesture_throws
    (call : Automation.NativeCall) (service : Service) (p : Promise)
    (w : World) :
  instance w = Some service ->
  needsService call = true ->
  isPasteEvent (Invoke call p) = false ->
  gestureOf call = None ->
  exists e, invokeNative appContext call p w = (Thrown e, w).
Proof.
  intros Hi Hn Hp Hg. destruct w as [i q g c sc pc]. cbn in Hi. subst i.
  destruct call; try discriminate; cbn [gestureOf] in Hg;
    cbn [invokeNative];
    unfold AutomationModule.tap, AutomationModule.swipe,
      AutomationService.tap, AutomationService.swipe,
      AutomationService.withService, bind;
    cbn [instance];
    match type of Hg with
    | match ?b with _ => _ end = _ => destruct b as [gesture | e];
                                      [discriminate |]
    end;
    exists e; reflexivity.
Qed.

(** The world the dispatch runnable leaves behind. *)
Lemma dispatch_posted_world
    (service : Service) (gesture : GestureDescription) (p : Promise)
    (w : World) :
  snd (AutomationService.dispatchGestureWithCallback_posted
         service gesture (ResolveWith p) w)
  = mkWorld (instance w) (mainLooper w)
      (gestureCallbacks w ++ [ResultCallback (ResolveWith p)])
      (primaryClip w)
      (serviceCalls w ++ [CallDispatchGesture gesture])
      (promiseCalls w
         ++ if acceptsGesture service (List.length (gestureCallbacks w))
            then [] else [(p, Resolved false)]).
Proof.
  destruct w as [i q g c sc pc].
  unfold AutomationService.dispatchGestureWithCallback_posted, bind,
    dispatchGesture.
  cbn [instance mainLooper gestureCallbacks primaryClip serviceCalls
       promiseCalls].
  destruct (acceptsGesture service (List.length g)); cbn.
  - now rewrite app_nil_r.
  - reflexivity.
Qed.

(** A runnable leaves the looper and the service alone, and touches only its
    own promise. *)
Lemma runRunnable_frame (r : Runnable) (p : Promise) (w : World) :
  let w' := snd (runRunnable r w) in
  mainLooper w' = mainLooper w /\
  instance w' = instance w /\
  (runnablePromise r <> p -> callsOn p w' = callsOn p w) /\
  List.length (gestureCallbacks w')
  = (List.length (gestureCallbacks w)
     + if isRunDispatch r then 1 else 0)%nat.
Proof.
  destruct r as [service gesture [p'] | service text [p']];
    cbn [runRunnable runnablePromise isRunDispatch]; cbv zeta.
  - rewrite dispatch_posted_world. destruct w as [i q g c sc pc].
    cbn [instance mainLooper gestureCallbacks primaryClip serviceCalls
         promiseCalls].
    repeat split.
    + intros Hne. destruct (acceptsGesture service (List.length g)).
      * apply callsOn_same_calls. cbn. apply app_nil_r.
      * now apply callsOn_snoc_other.
    + rewrite length_app. reflexivity.
  - rewrite pasteInternal_posted_world. destruct w as [i q g c sc pc].
    cbn [instance mainLooper gestureCallbacks primaryClip serviceCalls
         promiseCalls].
    destruct (focusedTarget service) as [target |];
      [cbv zeta; destruct (acceptsSetText target text) |];
      cbn [instance mainLooper gestureCallbacks]; repeat split;
      try (intros Hne; now apply callsOn_snoc_other); lia.
Qed.

(** The main looper works off what was posted earlier. *)
Lemma main_looper_drains (p : Promise) (earlier later : list Runnable) :
  Forall (fun r => runnablePromise r <> p) earlier ->
  forall w,
    mainLooper w = earlier ++ later ->
    let w' := run appContext (repeat MainLoop (List.length earlier)) w in
    mainLooper w' = later /\
    instance w' = instance w /\
    callsOn p w' = callsOn p w /\
    List.length (gestureCallbacks w')
    = (List.length (gestureCallbacks w)
       + List.length (filter isRunDispatch earlier))%nat.
Proof.
  induction 1 as [| r earlier Hr _ IH]; intros w Hq.
  - cbn. repeat split; [exact Hq | lia].
  - cbn [List.length repeat run step].
    set (w0 := mkWorld (instance w) (earlier ++ later) (gestureCallbacks w)
                 (primaryClip w) (serviceCalls w) (promiseCalls w)).
    assert (E : snd (mainLoop w) = snd (runRunnable r w0)).
    { unfold mainLoop. rewrite Hq. reflexivity. }
    rewrite E.
    destruct (runRunnable_frame r p w0) as (Hl & Hi & Hc & Hg).
    destruct (IH (snd (runRunnable r w0)) Hl) as (Hl' & Hi' & Hc' & Hg').
    repeat split.
    + exact Hl'.
    + rewrite Hi', Hi. reflexivity.
    + rewrite Hc', (Hc Hr). reflexivity.
    + rewrite Hg', Hg. cbn [filter gestureCallbacks w0].
      destruct (isRunDispatch r); cbn [List.length]; lia.
Qed.

(** Reports on a callback object call its promise, once each. *)
Lemma reports_settle (p : Promise) (n : nat) (signals : list Signal) :
  forall w,
    nth_error (gestureCallbacks w) n = Some (ResultCallback (ResolveWith p)) ->
    callsOn p (run appContext (map (signalEvent n) signals) w)
    = callsOn p w ++ map signalSettlement signals.
Proof.
  induction signals as [| s signals IH]; intros w Hn.
  - cbn. now rewrite app_nil_r.
  - cbn [map run].
    assert (E : snd (step appContext (signalEvent n s) w)
                = snd (settle p (signalSettlement s) w)).
    { destruct s; cbn [signalEvent step]; unfold report; rewrite Hn;
        reflexivity. }
    rewrite E. destruct w as [i q g c sc pc]. cbn [settle snd] in *.
    rewrite IH by exact Hn.
    rewrite (callsOn_snoc p _ i q g c sc), <- app_assoc. reflexivity.
Qed.

(** One gesture command, from the call to the framework's reports: the
    promise is called once if the framework refuses the gesture, and once
    for every report. *)
Lemma command_calls
    (call : Automation.NativeCall) (gesture : GestureDescription)
    (service : Service) (p : Promise) (signals : list Signal) (w : World) :
  instance w = Some service ->
  gestureOf call = Some gesture ->
  Forall (fun r => runnablePromise r <> p) (mainLooper w) ->
  callsOn p (run appContext (commandSchedule w call p signals) w)
  = callsOn p w
      ++ (if acceptsGesture service (commandIndex w)
          then [] else [Resolved false])
      ++ map signalSettlement signals.
Proof.
  intros Hi Hg Hq. unfold commandSchedule.
  cbn [run]. rewrite step_invoke, (invoke_gesture_posts _ _ _ _ _ Hi Hg).
  rewrite !run_app.
  set (r := RunDispatch service gesture (ResolveWith p)).
  set (w1 := snd (post r w)).
  assert (Hq1 : mainLooper w1 = mainLooper w ++ [r]) by reflexivity.
  destruct (main_looper_drains p (mainLooper w) [r] Hq w1 Hq1)
    as (Hl & Hi2 & Hc & Hn).
  set (w2 := run appContext (repeat MainLoop (List.length (mainLooper w))) w1)
    in *.
  assert (E : run appContext [MainLoop] w2
              = mkWorld (instance w2) []
                  (gestureCallbacks w2 ++ [ResultCallback (ResolveWith p)])
                  (primaryClip w2)
                  (serviceCalls w2 ++ [CallDispatchGesture gesture])
                  (promiseCalls w2
                     ++ if acceptsGesture service
                             (List.length (gestureCallbacks w2))
                        then [] else [(p, Resolved false)])).
  { cbn [run step]. unfold mainLoop. rewrite Hl. cbn [runRunnable r].
    rewrite dispatch_posted_world. reflexivity. }
  rewrite E. rewrite reports_settle.
  - assert (Hidx : List.length (gestureCallbacks w2) = commandIndex w).
    { rewrite Hn. reflexivity. }
    rewrite Hidx.
    assert (Hc1 : callsOn p w1 = callsOn p w) by reflexivity.
    rewrite <- Hc1, <- Hc. rewrite app_assoc. f_equal.
    destruct w2 as [i q g c sc pc].
    cbn [instance mainLooper gestureCallbacks primaryClip serviceCalls
         promiseCalls].
    destruct (acceptsGesture service (commandIndex w)).
    + rewrite !app_nil_r. reflexivity.
    + apply callsOn_snoc.
  - cbn [gestureCallbacks].
    assert (Hidx : commandIndex w = List.length (gestureCallbacks w2)).
    { rewrite Hn. reflexivity. }
    rewrite Hidx, nth_error_app2 by lia.
    rewrite Nat.sub_diag. reflexivity.
Qed.

End CommandFacts.

(** ** The gesture dispatcher and the facade's results *)

Section DispatchFacts.
Context {N : Numbers} {F : Framework}.
Variable appContext : ReactApplicationContext.

(** C1, amended. Over one command the promise is called once if the
    framework refuses the gesture and once for every report the framework
    makes on it. So it is called exactly once, with a boolean, when the
    framework makes no report after a refusal and exactly one report after
    taking the gesture. *)
Theorem promise_called_once_per_signal
    (call : Automation.NativeCall) (gesture : GestureDescription)
    (service : Service) (p : Promise) (signals : list Signal) (w : World) :
  instance w = Some service ->
  gestureOf call = Some gesture ->
  Forall (fun r => runnablePromise r <> p) (mainLooper w) ->
  let w' := run appContext (commandSchedule w call p signals) w in
  let accepted := acceptsGesture service (commandIndex w) in
  callsOn p w'
  = callsOn p w
      ++ (if accepted then [] else [Resolved false])
      ++ map signalSettlement signals /\
  ((accepted = false -> signals = []) ->
   (accepted = true -> List.length signals = 1%nat) ->
   exists outcome, callsOn p w' = callsOn p w ++ [Resolved outcome]).
Proof.
  intros Hi Hg Hq w' accepted.
  pose proof (command_calls appContext call gesture service p signals w
                Hi Hg Hq) as E.
  fold w' accepted in E. split; [exact E |].
  intros Hrefused Htaken. rewrite E.
  destruct accepted.
  - specialize (Htaken eq_refl).
    destruct signals as [| s [| s' signals]]; try discriminate.
    destruct s; [exists true | exists false]; reflexivity.
  - rewrite (Hrefused eq_refl). exists false. reflexivity.
Qed.

(** C8. A refused gesture resolves the promise with [false]; a gesture the
    framework took resolves it with [true] when reported completed and with
    [false] when reported cancelled. *)
Theorem gesture_outcome_surfaces
    (call : Automation.NativeCall) (gesture : GestureDescription)
    (service : Service) (p : Promise) (w : World) :
  instance w = Some service ->
  gestureOf call = Some gesture ->
  Forall (fun r => runnablePromise r <> p) (mainLooper w) ->
  let accepted := acceptsGesture service (commandIndex w) in
  (accepted = false ->
   callsOn p (run appContext (commandSchedule w call p []) w)
   = callsOn p w ++ [Resolved false]) /\
  (accepted = true ->
   callsOn p (run appContext (commandSchedule w call p [Completed]) w)
   = callsOn p w ++ [Resolved true]) /\
  (accepted = true ->
   callsOn p (run appContext (commandSchedule w call p [Cancelled]) w)
   = callsOn p w ++ [Resolved false]).
Proof.
  intros Hi Hg Hq accepted. subst accepted.
  repeat split; intros Ha;
    rewrite (command_calls appContext call gesture service p _ w Hi Hg Hq),
      Ha; reflexivity.
Qed.

(** C5. Without a connected service, [tap], [swipe] and [pasteText] reject
    the promise with the code [SERVICE_NOT_RUNNING] and change nothing else:
    nothing is posted to the main looper and the framework is not called. *)
Theorem absent_service_rejects
    (call : Automation.NativeCall) (p : Promise) (w : World) :
  instance w = None ->
  needsService call = true ->
  onlySettles p
    (Rejected "SERVICE_NOT_RUNNING"
       AutomationModule.SERVICE_NOT_RUNNING_MESSAGE)
    w (run appContext [Invoke call p] w).
Proof.
  intros Hi Hn. cbn [run]. rewrite step_invoke.
  rewrite (invoke_without_service appContext call p w Hi Hn).
  destruct w as [i q g c sc pc]. repeat split.
Qed.

End DispatchFacts.

(** ** Errors as the caller sees them *)

Section ErrorFacts.
Context {N : Numbers} {F : Framework}.
Variable appContext : ReactApplicationContext.

(** One paste command, from the call to the runnable's end: the promise is
    resolved once, with what the resolver found. *)
Lemma paste_command_calls
    (text : string) (service : Service) (p : Promise) (w : World) :
  instance w = Some service ->
  Forall (fun r => runnablePromise r <> p) (mainLooper w) ->
  callsOn p
    (run appContext (commandSchedule w (Automation.pasteText_ text) p []) w)
  = callsOn p w
      ++ [Resolved
            match focusedTarget service with
            | None => false
            | Some target =>
                if acceptsSetText target text then true
                else acceptsPaste target
                       (Some (newPlainText "automation" text))
            end].
Proof.
  intros Hi Hq. unfold commandSchedule.
  cbn [run map]. rewrite step_invoke, (invoke_paste_posts _ _ _ _ _ Hi).
  rewrite app_nil_r, run_app.
  set (r := RunPaste service text (ResolveWith p)).
  set (w1 := snd (post r w)).
  assert (Hq1 : mainLooper w1 = mainLooper w ++ [r]) by reflexivity.
  destruct (main_looper_drains appContext p (mainLooper w) [r] Hq w1 Hq1)
    as (Hl & _ & Hc & _).
  set (w2 := run appContext (repeat MainLoop (List.length (mainLooper w))) w1)
    in *.
  assert (Hc1 : callsOn p w1 = callsOn p w) by reflexivity.
  rewrite <- Hc1, <- Hc.
  cbn [run step]. unfold mainLoop. rewrite Hl. cbn [runRunnable r].
  rewrite pasteInternal_posted_world.
  destruct w2 as [i q g c sc pc].
  cbn [instance mainLooper gestureCallbacks primaryClip serviceCalls
       promiseCalls].
  destruct (focusedTarget service) as [target |];
    [cbv zeta; destruct (acceptsSetText target text) |];
    apply callsOn_snoc.
Qed.


End ErrorFacts.

(** ** Concrete runs *)

(** A tap on a service that takes it, reported completed once: one call. *)
Lemma promise_called_once_per_signal_witness :
  exists outcome,
    callsOn 0
      (run quietContext
         (commandSchedule (idle (Some (serviceWith None true)))
            (Automation.tap_ (N := integers) 100 200 50) 0 [Completed])
         (idle (Some (serviceWith None true))))
    = [Resolved outcome].
Proof.
  destruct (promise_called_once_per_signal (N := integers) (F := androidIntegers) quietContext
              (Automation.tap_ (N := integers) 100 200 50)
              (tapAt 100 200 50)
              (serviceWith None true) 0 [Completed]
              (idle (Some (serviceWith None true)))
              eq_refl eq_refl (Forall_nil _)) as [_ Honce].
  apply Honce.
  - intros Hrefused. discriminate Hrefused.
  - intros _. reflexivity.
Defined.

(** C1 as stated fails: a gesture the framework refuses and later reports
    cancelled has its promise resolved twice. *)
Lemma refusal_then_cancellation_resolves_twice :
  let w := idle (Some (serviceWith None false)) in
  let w' := run quietContext
              (commandSchedule w (Automation.tap_ (N := integers) 0 0 10) 0
                 [Cancelled]) w in
  callsOn 0 w' = [Resolved false; Resolved false] /\
  ~ exists outcome, callsOn 0 w' = [outcome].
Proof.
  split; [reflexivity |].
  intros [outcome H]. discriminate H.
Qed.

Lemma absent_service_rejects_witness :
  onlySettles 0
    (Rejected "SERVICE_NOT_RUNNING"
       AutomationModule.SERVICE_NOT_RUNNING_MESSAGE)
    (idle None)
    (run quietContext [Invoke (Automation.tap_ (N := integers) 1 1 10) 0]
       (idle None)).
Proof.
  apply (absent_service_rejects (N := integers) (F := androidIntegers) quietContext
           (Automation.tap_ (N := integers) 1 1 10) 0 (idle None));
    reflexivity.
Defined.

Lemma gesture_outcome_surfaces_witness :
  callsOn 0
    (run quietContext
       (commandSchedule (idle (Some (serviceWith None false)))
          (Automation.swipe_ (N := integers) 0 0 10 10 150) 0 [])
       (idle (Some (serviceWith None false))))
  = [Resolved false] /\
  callsOn 0
    (run quietContext
       (commandSchedule (idle (Some (serviceWith None true)))
          (Automation.tap_ (N := integers) 100 200 50) 0 [Completed])
       (idle (Some (serviceWith None true))))
  = [Resolved true] /\
  callsOn 0
    (run quietContext
       (commandSchedule (idle (Some (serviceWith None true)))
          (Automation.tap_ (N := integers) 100 200 50) 0 [Cancelled])
       (idle (Some (serviceWith None true))))
  = [Resolved false].
Proof.
  split; [| split].
  - destruct (gesture_outcome_surfaces (N := integers) (F := androidIntegers) quietContext
                (Automation.swipe_ (N := integers) 0 0 10 10 150)
                (swipeAlong 0 0 10 10 150)
                (serviceWith None false) 0
                (idle (Some (serviceWith None false)))
                eq_refl eq_refl (Forall_nil _)) as (Hrefused & _ & _).
    apply Hrefused. reflexivity.
  - destruct (gesture_outcome_surfaces (N := integers) (F := androidIntegers) quietContext
                (Automation.tap_ (N := integers) 100 200 50)
                (tapAt 100 200 50)
                (serviceWith None true) 0
                (idle (Some (serviceWith None true)))
                eq_refl eq_refl (Forall_nil _)) as (_ & Hcompleted & _).
    apply Hcompleted. reflexivity.
  - destruct (gesture_outcome_surfaces (N := integers) (F := androidIntegers) quietContext
                (Automation.tap_ (N := integers) 100 200 50)
                (tapAt 100 200 50)
                (serviceWith None true) 0
                (idle (Some (serviceWith None true)))
                eq_refl eq_refl (Forall_nil _)) as (_ & _ & Hcancelled).
    apply Hcancelled. reflexivity.
Defined.

(** * More of the bridge *)

(** ** What one event does to the world *)

Section StepFacts.
Context {N : Numbers} {F : Framework}.
Variable appContext : ReactApplicationContext.

(** A native call leaves the service, the callback objects and the clipboard
    alone. It calls its promise once, or posts one runnable that carries it,
    or throws while building its gesture and changes nothing. *)
Lemma invoke_summary (call : Automation.NativeCall) (p : Promise) (w : World) :
  let w' := snd (step appContext (Invoke call p) w) in
  instance w' = instance w /\
  gestureCallbacks w' = gestureCallbacks w /\
  primaryClip w' = primaryClip w /\
  ((exists s,
      promiseCalls w' = promiseCalls w ++ [(p, s)] /\
      knownSettlement (p, s) = true /\
      mainLooper w' = mainLooper w) \/
   (exists r,
      mainLooper w' = mainLooper w ++ [r] /\
      runnablePromise r = p /\
      isRunPaste r = isPasteEvent (Invoke call p) /\
      promiseCalls w' = promiseCalls w /\
      serviceCalls w' = serviceCalls w) \/
   (w' = w /\
    exists e, fst (invokeNative appContext call p w) = Thrown e)).
Proof.
  cbv zeta. rewrite step_invoke.
  destruct w as [i q g c sc pc]. destruct call; cbn [invokeNative].
  - cbn. repeat split. left. eexists. repeat split.
  - unfold AutomationModule.openAccessibilitySettings, startActivity, bind,
      logCall, ret.
    destruct (startActivityThrows appContext _); cbn;
      repeat split; left; eexists; repeat split.
  - unfold AutomationModule.openApp, startActivity, bind, logCall, ret.
    destruct (getLaunchIntentForPackage appContext packageName)
      as [[launchIntent |] | e];
      [destruct (startActivityThrows appContext _) | |]; cbn;
      repeat split; left; eexists; repeat split.
  - unfold AutomationModule.tap, AutomationService.tap,
      AutomationService.withService, bind.
    cbn [instance]. destruct i as [service |].
    + destruct (AutomationService.gestureForTap _ _ _) as [gesture | e];
        cbn; repeat split; right; [left | right]; eexists; repeat split.
      eexists. reflexivity.
    + cbn. repeat split. left. eexists. repeat split.
  - unfold AutomationModule.swipe, AutomationService.swipe,
      AutomationService.withService, bind.
    cbn [instance]. destruct i as [service |].
    + destruct (AutomationService.gestureForSwipe _ _ _ _ _) as [gesture | e];
        cbn; repeat split; right; [left | right]; eexists; repeat split.
      eexists. reflexivity.
    + cbn. repeat split. left. eexists. repeat split.
  - destruct i as [service |]; cbn; repeat split;
      [right; left | left]; eexists; repeat split.
Qed.

(** A runnable calls only its own promise, with a boolean and at most once;
    it hands the framework at most one callback object, carrying that
    promise; only a paste runnable touches the clipboard. *)
Lemma runnable_summary (r : Runnable) (w : World) :
  let w' := snd (runRunnable r w) in
  instance w' = instance w /\
  mainLooper w' = mainLooper w /\
  (exists handed,
     gestureCallbacks w' = gestureCallbacks w ++ handed /\
     Forall (fun o => callbackObjectPromise o = runnablePromise r) handed) /\
  (exists new,
     promiseCalls w' = promiseCalls w ++ new /\
     (List.length new <= 1)%nat /\
     Forall (fun c => fst c = runnablePromise r /\
                      exists b, snd c = Resolved b) new) /\
  (isRunPaste r = false -> primaryClip w' = primaryClip w).
Proof.
  destruct r as [service gesture [p] | service text [p]]; cbn [runRunnable];
    cbv zeta.
  - rewrite dispatch_posted_world. destruct w as [i q g c sc pc].
    cbn [instance mainLooper gestureCallbacks primaryClip promiseCalls].
    split; [reflexivity | split; [reflexivity | split; [| split]]].
    + eexists. split; [reflexivity |]. repeat constructor.
    + eexists. split; [reflexivity |].
      destruct (acceptsGesture service (List.length g)); cbn; split;
        try lia; repeat constructor; eexists; reflexivity.
    + reflexivity.
  - rewrite pasteInternal_posted_world. destruct w as [i q g c sc pc].
    destruct (focusedTarget service) as [target |];
      [cbv zeta; destruct (acceptsSetText target text) |];
      cbn [instance mainLooper gestureCallbacks primaryClip promiseCalls];
      (split; [reflexivity | split; [reflexivity | split; [| split]]];
       [exists []; split; [now rewrite app_nil_r | constructor]
       | eexists; split; [reflexivity |]; cbn; split; [lia |];
         repeat constructor; eexists; reflexivity
       | discriminate]).
Qed.

End StepFacts.

(** ** What every run keeps *)

Section RunFacts.
Context {N : Numbers} {F : Framework}.
Variable appContext : ReactApplicationContext.

Lemma mainLoop_idle (w : World) :
  mainLooper w = [] -> snd (mainLoop w) = w.
Proof. intros E. unfold mainLoop. now rewrite E. Qed.

Lemma mainLoop_runs_oldest (r : Runnable) (rest : list Runnable) (w : World) :
  mainLooper w = r :: rest ->
  snd (mainLoop w)
  = snd (runRunnable r
           (mkWorld (instance w) rest (gestureCallbacks w) (primaryClip w)
              (serviceCalls w) (promiseCalls w))).
Proof. intros E. unfold mainLoop. now rewrite E. Qed.

Lemma report_unknown (n : nat) method (w : World) :
  nth_error (gestureCallbacks w) n = None -> snd (report n method w) = w.
Proof. intros E. unfold report. now rewrite E. Qed.

Lemma report_known (e : Event) (n : nat) (o : GestureResultCallback)
    (w : World) :
  reportIndex e = Some n ->
  nth_error (gestureCallbacks w) n = Some o ->
  exists b,
    snd (step appContext e w)
    = snd (settle (callbackObjectPromise o) (Resolved b) w).
Proof.
  intros He Hn.
  destruct e; try discriminate; injection He as ->;
    cbn [step]; unfold report; rewrite Hn; destruct o as [[p]];
    eexists; reflexivity.
Qed.

Lemma callsOn_app_other (p : Promise) i q g c sc i' q' g' c' sc'
    (pc new : list (Promise * Settlement)) :
  Forall (fun s => fst s <> p) new ->
  callsOn p (mkWorld i' q' g' c' sc' (pc ++ new))
  = callsOn p (mkWorld i q g c sc pc).
Proof.
  intros Hnew. unfold callsOn. cbn [promiseCalls].
  rewrite filter_app, map_app.
  etransitivity; [| apply app_nil_r]. f_equal.
  induction Hnew as [| s new Hs _ IH]; [reflexivity |].
  cbn [filter].
  match goal with
  | |- context [Nat.eqb ?a ?b] => destruct (Nat.eqb a b) eqn:Es
  end; [| exact IH].
  apply Nat.eqb_eq in Es. contradiction.
Qed.

(** One quiet event neither calls the promise nor comes to hold it. *)
Lemma quiet_step (p : Promise) (pending : nat -> bool) (e : Event) (w : World) :
  heldOnlyAt p pending w ->
  quietFor p pending e ->
  heldOnlyAt p pending (snd (step appContext e w)) /\
  callsOn p (snd (step appContext e w)) = callsOn p w.
Proof.
  intros [Hq Hg] [Hp Hr].
  destruct e as [call p' | | n | n | service |].
  - (* a native call with another promise *)
    assert (Hne : p' <> p) by (intros ->; now apply Hp).
    destruct (invoke_summary appContext call p' w)
      as (_ & Eg & _ &
          [(s & Ec & _ & El) | [(r & El & Er & _ & Ec & _) | (Ew & _)]]).
    + split.
      * split; [now rewrite El | now rewrite Eg].
      * destruct w as [i q g c sc pc].
        destruct (snd (step appContext (Invoke call p') _))
          as [i' q' g' c' sc' pc'].
        cbn [promiseCalls] in Ec. subst pc'. now apply callsOn_snoc_other.
    + split.
      * split; [| now rewrite Eg].
        rewrite El. apply Forall_app. split; [exact Hq |].
        constructor; [now rewrite Er | constructor].
      * now apply callsOn_same_calls.
    + rewrite Ew. split; [split; assumption | reflexivity].
  - (* the main looper *)
    cbn [step]. destruct (mainLooper w) as [| r rest] eqn:El.
    + rewrite (mainLoop_idle w El). split; [split; [now rewrite El |] |];
        auto.
    + rewrite (mainLoop_runs_oldest r rest w El).
      inversion Hq as [| r0 rest0 Hr0 Hrest]; subst.
      set (w0 := mkWorld (instance w) rest (gestureCallbacks w)
                   (primaryClip w) (serviceCalls w) (promiseCalls w)).
      destruct (runnable_summary r w0)
        as (_ & El' & (handed & Eg & Hh) & (new & Ec & _ & Hnew) & _).
      split.
      * split; [now rewrite El' |].
        intros n o Hn Ho. rewrite Eg in Hn. cbn [gestureCallbacks w0] in Hn.
        destruct (Nat.lt_ge_cases n (List.length (gestureCallbacks w)))
          as [Hlt | Hge].
        -- rewrite nth_error_app1 in Hn by exact Hlt. now apply (Hg n o).
        -- rewrite nth_error_app2 in Hn by exact Hge.
           apply nth_error_In in Hn.
           rewrite Forall_forall in Hh. rewrite (Hh o Hn) in Ho.
           contradiction.
      * destruct w as [i q g c sc pc].
        destruct (snd (runRunnable r w0)) as [i' q' g' c' sc' pc'].
        cbn [promiseCalls w0] in Ec. subst pc'.
        apply callsOn_app_other.
        eapply Forall_impl; [| exact Hnew].
        intros s [Hs _]. now rewrite Hs.
  - (* a report of completion *)
    destruct (nth_error (gestureCallbacks w) n) as [o |] eqn:En.
    + destruct (report_known (GestureCompleted n) n o w eq_refl En)
        as [b Eb].
      rewrite Eb.
      assert (Hne : callbackObjectPromise o <> p).
      { intros Ho. specialize (Hr n eq_refl).
        rewrite (Hg n o En Ho) in Hr. discriminate. }
      destruct w as [i q g c sc pc]. cbn [settle snd].
      split; [split; assumption | now apply callsOn_snoc_other].
    + cbn [step]. rewrite (report_unknown n _ w En).
      split; [split; assumption | reflexivity].
  - (* a report of cancellation *)
    destruct (nth_error (gestureCallbacks w) n) as [o |] eqn:En.
    + destruct (report_known (GestureCancelled n) n o w eq_refl En)
        as [b Eb].
      rewrite Eb.
      assert (Hne : callbackObjectPromise o <> p).
      { intros Ho. specialize (Hr n eq_refl).
        rewrite (Hg n o En Ho) in Hr. discriminate. }
      destruct w as [i q g c sc pc]. cbn [settle snd].
      split; [split; assumption | now apply callsOn_snoc_other].
    + cbn [step]. rewrite (report_unknown n _ w En).
      split; [split; assumption | reflexivity].
  - destruct w as [i q g c sc pc]. cbn. split; [split; assumption |].
    reflexivity.
  - destruct w as [i q g c sc pc]. cbn. split; [split; assumption |].
    reflexivity.
Qed.

Lemma quiet_run (p : Promise) (pending : nat -> bool) (es : list Event) :
  Forall (quietFor p pending) es ->
  forall w,
    heldOnlyAt p pending w ->
    heldOnlyAt p pending (run appContext es w) /\
    callsOn p (run appContext es w) = callsOn p w.
Proof.
  induction 1 as [| e es He _ IH]; intros w Hw.
  - split; [exact Hw | reflexivity].
  - cbn [run].
    destruct (quiet_step p pending e w Hw He) as [Hw' Hc].
    destruct (IH _ Hw') as [Hw'' Hc'].
    split; [exact Hw'' | now rewrite Hc', Hc].
Qed.

Lemma unheld_heldOnlyAt (p : Promise) (w : World) :
  unheld p w -> heldOnlyAt p (fun _ => false) w.
Proof.
  intros [Hq Hg]. split; [exact Hq |].
  intros n o Hn Ho. apply nth_error_In in Hn.
  rewrite Forall_forall in Hg. now apply Hg in Hn.
Qed.

End RunFacts.

Section RunInvariants.
Context {N : Numbers} {F : Framework}.
Variable appContext : ReactApplicationContext.

(** X1. A promise that no waiting runnable and no callback object holds is
    never called by events that do not bring it: other callers' commands,
    the main looper, reports and connection changes leave it alone. *)
Theorem promise_called_only_by_its_command
    (p : Promise) (es : list Event) (w : World) :
  unheld p w ->
  Forall (fun e => eventPromise e <> Some p) es ->
  callsOn p (run appContext es w) = callsOn p w.
Proof.
  intros Hw Hes.
  apply (quiet_run appContext p (fun _ => false)).
  - eapply Forall_impl; [| exact Hes].
    intros e He. split; [exact He | reflexivity].
  - now apply unheld_heldOnlyAt.
Qed.

Lemma step_calls_known (e : Event) (w : World) :
  exists new,
    promiseCalls (snd (step appContext e w)) = promiseCalls w ++ new /\
    forallb knownSettlement new = true.
Proof.
  destruct e as [call p | | n | n | service |].
  - destruct (invoke_summary appContext call p w)
      as (_ & _ & _ &
          [(s & Ec & Hs & _) | [(r & _ & _ & _ & Ec & _) | (Ew & _)]]).
    + exists [(p, s)]. split; [exact Ec |]. cbn [forallb]. now rewrite Hs.
    + exists []. split; [now rewrite app_nil_r | reflexivity].
    + exists []. rewrite Ew. split; [now rewrite app_nil_r | reflexivity].
  - cbn [step]. destruct (mainLooper w) as [| r rest] eqn:El.
    + rewrite (mainLoop_idle w El). exists [].
      split; [now rewrite app_nil_r | reflexivity].
    + rewrite (mainLoop_runs_oldest r rest w El).
      destruct (runnable_summary r
                  (mkWorld (instance w) rest (gestureCallbacks w)
                     (primaryClip w) (serviceCalls w) (promiseCalls w)))
        as (_ & _ & _ & (new & Ec & _ & Hnew) & _).
      exists new. split; [exact Ec |].
      apply forallb_forall. intros c Hc.
      rewrite Forall_forall in Hnew. destruct (Hnew c Hc) as [_ [b Hb]].
      unfold knownSettlement. now rewrite Hb.
  - destruct (nth_error (gestureCallbacks w) n) as [o |] eqn:En.
    + destruct (report_known appContext (GestureCompleted n) n o w eq_refl En)
        as [b Eb].
      rewrite Eb. eexists. split; reflexivity.
    + cbn [step]. rewrite (report_unknown n _ w En). exists [].
      split; [now rewrite app_nil_r | reflexivity].
  - destruct (nth_error (gestureCallbacks w) n) as [o |] eqn:En.
    + destruct (report_known appContext (GestureCancelled n) n o w eq_refl En)
        as [b Eb].
      rewrite Eb. eexists. split; reflexivity.
    + cbn [step]. rewrite (report_unknown n _ w En). exists [].
      split; [now rewrite app_nil_r | reflexivity].
  - exists []. split; [cbn; now rewrite app_nil_r | reflexivity].
  - exists []. split; [cbn; now rewrite app_nil_r | reflexivity].
Qed.

(** X2. Whatever happens, the calls made on promises are only added to, and
    each added call is a resolution with a boolean or a rejection with one
    of the codes [SERVICE_NOT_RUNNING], [OPEN_SETTINGS_FAILED] and
    [OPEN_APP_FAILED]. *)
Theorem rejections_carry_known_codes (es : list Event) (w : World) :
  exists new,
    promiseCalls (run appContext es w) = promiseCalls w ++ new /\
    forallb knownSettlement new = true.
Proof.
  revert w. induction es as [| e es IH]; intros w.
  - exists []. split; [cbn; now rewrite app_nil_r | reflexivity].
  - cbn [run].
    destruct (step_calls_known e w) as (new & Ec & Hnew).
    destruct (IH (snd (step appContext e w))) as (new' & Ec' & Hnew').
    exists (new ++ new'). split.
    + rewrite Ec', Ec. now rewrite app_assoc.
    + rewrite forallb_app, Hnew, Hnew'. reflexivity.
Qed.

Lemma step_keeps_clipboard (e : Event) (w : World) :
  Forall (fun r => isRunPaste r = false) (mainLooper w) ->
  isPasteEvent e = false ->
  Forall (fun r => isRunPaste r = false)
    (mainLooper (snd (step appContext e w))) /\
  primaryClip (snd (step appContext e w)) = primaryClip w.
Proof.
  intros Hq He.
  destruct e as [call p | | n | n | service |].
  - destruct (invoke_summary appContext call p w)
      as (_ & _ & Eclip &
          [(s & _ & _ & El) | [(r & El & _ & Er & _ & _) | (Ew & _)]]).
    + split; [now rewrite El | exact Eclip].
    + split; [| exact Eclip].
      rewrite El. apply Forall_app. split; [exact Hq |].
      constructor; [now rewrite Er | constructor].
    + rewrite Ew. split; [exact Hq | reflexivity].
  - cbn [step]. destruct (mainLooper w) as [| r rest] eqn:El.
    + rewrite (mainLoop_idle w El). split; [now rewrite El | reflexivity].
    + rewrite (mainLoop_runs_oldest r rest w El).
      inversion Hq as [| r0 rest0 Hr Hrest]; subst.
      destruct (runnable_summary r
                  (mkWorld (instance w) rest (gestureCallbacks w)
                     (primaryClip w) (serviceCalls w) (promiseCalls w)))
        as (_ & El' & _ & _ & Eclip).
      split; [now rewrite El' | exact (Eclip Hr)].
  - destruct (nth_error (gestureCallbacks w) n) as [o |] eqn:En.
    + destruct (report_known appContext (GestureCompleted n) n o w eq_refl En)
        as [b Eb].
      rewrite Eb. destruct w as [i q g c sc pc]. split; [exact Hq |].
      reflexivity.
    + cbn [step]. rewrite (report_unknown n _ w En).
      split; [exact Hq | reflexivity].
  - destruct (nth_error (gestureCallbacks w) n) as [o |] eqn:En.
    + destruct (report_known appContext (GestureCancelled n) n o w eq_refl En)
        as [b Eb].
      rewrite Eb. destruct w as [i q g c sc pc]. split; [exact Hq |].
      reflexivity.
    + cbn [step]. rewrite (report_unknown n _ w En).
      split; [exact Hq | reflexivity].
  - destruct w as [i q g c sc pc]. split; [exact Hq | reflexivity].
  - destruct w as [i q g c sc pc]. split; [exact Hq | reflexivity].
Qed.

(** X3. Only a paste can change the clipboard: when no paste runnable is
    waiting and no [pasteText] call comes, the clipboard keeps what it held
    through taps, swipes, status queries, launches, reports and connection
    changes. *)
Theorem clipboard_kept_without_paste (es : list Event) (w : World) :
  Forall (fun r => isRunPaste r = false) (mainLooper w) ->
  forallb (fun e => negb (isPasteEvent e)) es = true ->
  primaryClip (run appContext es w) = primaryClip w.
Proof.
  revert w. induction es as [| e es IH]; intros w Hq Hes; [reflexivity |].
  cbn [forallb] in Hes. apply andb_prop in Hes. destruct Hes as [He Hes].
  apply negb_true_iff in He.
  destruct (step_keeps_clipboard e w Hq He) as [Hq' Hc].
  cbn [run]. rewrite (IH _ Hq' Hes). exact Hc.
Qed.

End RunInvariants.

(** ** A command between its call and its reports *)

Section PostedCommandFacts.
Context {N : Numbers} {F : Framework}.
Variable appContext : ReactApplicationContext.

Lemma main_looper_drains_callbacks
    (p : Promise) (earlier later : list Runnable) :
  Forall (fun r => runnablePromise r <> p) earlier ->
  forall w,
    mainLooper w = earlier ++ later ->
    Forall (fun o => callbackObjectPromise o <> p) (gestureCallbacks w) ->
    Forall (fun o => callbackObjectPromise o <> p)
      (gestureCallbacks
         (run appContext (repeat MainLoop (List.length earlier)) w)).
Proof.
  induction 1 as [| r earlier Hr _ IH]; intros w Hq Hg; [exact Hg |].
  cbn [List.length repeat run step].
  rewrite (mainLoop_runs_oldest r (earlier ++ later) w Hq).
  set (w0 := mkWorld (instance w) (earlier ++ later) (gestureCallbacks w)
               (primaryClip w) (serviceCalls w) (promiseCalls w)).
  destruct (runnable_summary r w0) as (_ & El & (handed & Eg & Hh) & _ & _).
  apply IH; [exact El |].
  rewrite Eg. apply Forall_app. split; [exact Hg |].
  eapply Forall_impl; [| exact Hh]. intros o Ho. now rewrite Ho.
Qed.

(** A posted gesture runnable, once the main looper reaches it. *)
Lemma posted_command_runs
    (service : Service) (gesture : GestureDescription) (p : Promise)
    (earlier : list Runnable) (w : World) :
  mainLooper w = earlier ++ [RunDispatch service gesture (ResolveWith p)] ->
  Forall (fun r => runnablePromise r <> p) earlier ->
  let idx := (List.length (gestureCallbacks w)
              + List.length (filter isRunDispatch earlier))%nat in
  let w' := run appContext
              (repeat MainLoop (List.length earlier) ++ [MainLoop]) w in
  callsOn p w'
  = callsOn p w ++ (if acceptsGesture service idx then []
                    else [Resolved false]) /\
  mainLooper w' = [] /\
  nth_error (gestureCallbacks w') idx = Some (ResultCallback (ResolveWith p)) /\
  (Forall (fun o => callbackObjectPromise o <> p) (gestureCallbacks w) ->
   forall n o,
     nth_error (gestureCallbacks w') n = Some o ->
     callbackObjectPromise o = p -> n = idx).
Proof.
  intros Hq He idx w'. subst w'. rewrite run_app.
  set (r := RunDispatch service gesture (ResolveWith p)) in *.
  destruct (main_looper_drains appContext p earlier [r] He w Hq)
    as (Hl & _ & Hc & Hn).
  pose proof (main_looper_drains_callbacks p earlier [r] He w Hq) as Hg.
  set (w2 := run appContext (repeat MainLoop (List.length earlier)) w) in *.
  assert (E : run appContext [MainLoop] w2
              = mkWorld (instance w2) []
                  (gestureCallbacks w2 ++ [ResultCallback (ResolveWith p)])
                  (primaryClip w2)
                  (serviceCalls w2 ++ [CallDispatchGesture gesture])
                  (promiseCalls w2
                     ++ if acceptsGesture service
                             (List.length (gestureCallbacks w2))
                        then [] else [(p, Resolved false)])).
  { cbn [run step]. rewrite (mainLoop_runs_oldest r [] w2 Hl).
    cbn [runRunnable r]. rewrite dispatch_posted_world. reflexivity. }
  rewrite E. fold idx in Hn. rewrite Hn.
  cbn [mainLooper gestureCallbacks].
  split; [| split; [reflexivity | split]].
  - rewrite <- Hc. destruct w2 as [i q g c sc pc].
    cbn [instance mainLooper gestureCallbacks primaryClip serviceCalls
         promiseCalls].
    destruct (acceptsGesture service idx).
    + rewrite !app_nil_r. reflexivity.
    + apply callsOn_snoc.
  - rewrite <- Hn, nth_error_app2 by lia. now rewrite Nat.sub_diag.
  - intros Hw n o Hno Ho.
    destruct (Nat.lt_ge_cases n (List.length (gestureCallbacks w2)))
      as [Hlt | Hge].
    + rewrite nth_error_app1 in Hno by exact Hlt.
      apply nth_error_In in Hno.
      specialize (Hg Hw). rewrite Forall_forall in Hg.
      now apply Hg in Hno.
    + assert (Hlen : (n < List.length
                            (gestureCallbacks w2
                               ++ [ResultCallback (ResolveWith p)]))%nat).
      { apply nth_error_Some. now rewrite Hno. }
      rewrite length_app in Hlen. cbn [List.length] in Hlen. lia.
Qed.

Lemma connection_events_frame (between : list Event) :
  forallb isConnectionEvent between = true ->
  forall w,
    let w' := run appContext between w in
    mainLooper w' = mainLooper w /\
    gestureCallbacks w' = gestureCallbacks w /\
    primaryClip w' = primaryClip w /\
    serviceCalls w' = serviceCalls w /\
    promiseCalls w' = promiseCalls w.
Proof.
  induction between as [| e between IH]; intros Hb w;
    [cbn; repeat split |].
  cbn [forallb] in Hb. apply andb_prop in Hb. destruct Hb as [He Hb].
  cbn [run]. destruct (IH Hb (snd (step appContext e w)))
    as (E1 & E2 & E3 & E4 & E5).
  cbv zeta. rewrite E1, E2, E3, E4, E5.
  destruct e; try discriminate; destruct w as [i q g c sc pc]; cbn;
    repeat split.
Qed.

(** X4. A gesture command runs on the service that was connected when it
    was called. If the service is destroyed or another one is connected
    before the main looper reaches the command, the gesture is still
    submitted to the first service, and the promise is called as that
    service and its reports decide. *)
Theorem command_keeps_captured_service
    (call : Automation.NativeCall) (gesture : GestureDescription)
    (service : Service) (p : Promise) (between : list Event)
    (signals : list Signal) (w : World) :
  instance w = Some service ->
  gestureOf call = Some gesture ->
  Forall (fun r => runnablePromise r <> p) (mainLooper w) ->
  forallb isConnectionEvent between = true ->
  callsOn p
    (run appContext
       (Invoke call p :: between
          ++ (repeat MainLoop (List.length (mainLooper w)) ++ [MainLoop])
          ++ map (signalEvent (commandIndex w)) signals) w)
  = callsOn p w
      ++ (if acceptsGesture service (commandIndex w)
          then [] else [Resolved false])
      ++ map signalSettlement signals.
Proof.
  intros Hi Hg Hq Hb. cbn [run]. rewrite step_invoke.
  rewrite (invoke_gesture_posts appContext _ _ _ _ _ Hi Hg).
  do 2 rewrite run_app.
  set (r := RunDispatch service gesture (ResolveWith p)).
  set (w1 := snd (post r w)).
  destruct (connection_events_frame between Hb w1)
    as (El & Eg & _ & _ & Ec).
  set (w2 := run appContext between w1) in *.
  assert (Hq2 : mainLooper w2 = mainLooper w ++ [r]) by (rewrite El; reflexivity).
  destruct (posted_command_runs service gesture p (mainLooper w) w2 Hq2 Hq)
    as (Hcalls & _ & Hnth & _).
  assert (Hidx : (List.length (gestureCallbacks w2)
                  + List.length (filter isRunDispatch (mainLooper w)))%nat
                 = commandIndex w) by (rewrite Eg; reflexivity).
  rewrite Hidx in Hcalls, Hnth.
  rewrite (reports_settle appContext p _ signals _ Hnth), Hcalls.
  rewrite (callsOn_same_calls p w1 w2 Ec), <- app_assoc. reflexivity.
Qed.

(** After the framework took a gesture, events that neither bring its promise
    nor report on it leave the promise as it is. *)
Lemma pending_after_acceptance
    (call : Automation.NativeCall) (gesture : GestureDescription)
    (service : Service) (p : Promise) (later : list Event) (w : World) :
  instance w = Some service ->
  gestureOf call = Some gesture ->
  unheld p w ->
  acceptsGesture service (commandIndex w) = true ->
  Forall (fun e => eventPromise e <> Some p /\
                   reportIndex e <> Some (commandIndex w)) later ->
  callsOn p (run appContext (commandSchedule w call p [] ++ later) w)
  = callsOn p w.
Proof.
  intros Hi Hg [Hq Hcb] Ha Hlater.
  unfold commandSchedule. cbn [map]. rewrite app_nil_r.
  cbn [app run].
  rewrite step_invoke, (invoke_gesture_posts appContext _ _ _ _ _ Hi Hg).
  rewrite run_app.
  set (r := RunDispatch service gesture (ResolveWith p)).
  set (w1 := snd (post r w)).
  assert (Hq1 : mainLooper w1 = mainLooper w ++ [r]) by reflexivity.
  destruct (posted_command_runs service gesture p (mainLooper w) w1 Hq1 Hq)
    as (Hcalls & Hl & _ & Honly).
  change (List.length (gestureCallbacks w1)
          + List.length (filter isRunDispatch (mainLooper w)))%nat
    with (commandIndex w) in Hcalls, Honly.
  rewrite Ha, app_nil_r in Hcalls.
  set (w3 := run appContext
               (repeat MainLoop (List.length (mainLooper w)) ++ [MainLoop]) w1)
    in *.
  destruct (quiet_run appContext p (fun n => Nat.eqb n (commandIndex w)) later)
    with (w := w3) as [_ Hc].
  - eapply Forall_impl; [| exact Hlater].
    intros e [Hp Hr]. split; [exact Hp |].
    intros n Hn. apply Nat.eqb_neq. intros ->. now apply Hr.
  - split; [now rewrite Hl |].
    intros n o Hn Ho. apply Nat.eqb_eq. exact (Honly Hcb n o Hn Ho).
  - rewrite Hc, Hcalls. reflexivity.
Qed.

(** X5. The promise of a gesture the framework took is not called until the
    framework reports on it: nothing else that happens afterwards, be it
    other callers' commands, the main looper, reports on other gestures or
    the service being destroyed, calls it. The bridge has no timeout and
    cancels nothing itself. *)
Theorem accepted_gesture_waits_for_report
    (call : Automation.NativeCall) (gesture : GestureDescription)
    (service : Service) (p : Promise) (later : list Event) (w : World) :
  instance w = Some service ->
  gestureOf call = Some gesture ->
  unheld p w ->
  acceptsGesture service (commandIndex w) = true ->
  Forall (fun e => eventPromise e <> Some p /\
                   reportIndex e <> Some (commandIndex w)) later ->
  callsOn p (run appContext (commandSchedule w call p [] ++ later) w)
  = callsOn p w.
Proof.
  intros Hi Hg Hw Ha Hlater.
  exact (pending_after_acceptance call gesture service p later w
           Hi Hg Hw Ha Hlater).
Qed.

(** X6. Gestures reach the framework in the order they were called: of two
    gesture commands called one after the other, the first is submitted
    first and its callback object is handed over first. *)
Theorem gestures_submitted_in_call_order
    (call1 call2 : Automation.NativeCall)
    (gesture1 gesture2 : GestureDescription)
    (service : Service) (p1 p2 : Promise) (w : World) :
  instance w = Some service ->
  gestureOf call1 = Some gesture1 ->
  gestureOf call2 = Some gesture2 ->
  mainLooper w = [] ->
  let w' := run appContext
              [Invoke call1 p1; Invoke call2 p2; MainLoop; MainLoop] w in
  serviceCalls w'
  = serviceCalls w
      ++ [CallDispatchGesture gesture1; CallDispatchGesture gesture2] /\
  gestureCallbacks w'
  = gestureCallbacks w
      ++ [ResultCallback (ResolveWith p1); ResultCallback (ResolveWith p2)] /\
  mainLooper w' = [].
Proof.
  intros Hi Hg1 Hg2 Hq. cbv zeta. cbn [run]. rewrite !step_invoke.
  rewrite (invoke_gesture_posts appContext _ _ _ _ _ Hi Hg1).
  assert (Hi1 : instance
                  (snd (post (RunDispatch service gesture1 (ResolveWith p1)) w))
                = Some service) by exact Hi.
  rewrite (invoke_gesture_posts appContext _ _ _ _ _ Hi1 Hg2).
  cbn [step].
  destruct w as [i q g c sc pc]. cbn in Hq. subst q.
  cbn [post snd mainLooper instance gestureCallbacks primaryClip serviceCalls
       promiseCalls app].
  set (r1 := RunDispatch service gesture1 (ResolveWith p1)).
  set (r2 := RunDispatch service gesture2 (ResolveWith p2)).
  rewrite (mainLoop_runs_oldest r1 [r2] (mkWorld i [r1; r2] g c sc pc) eq_refl).
  cbn [runRunnable r1]. rewrite dispatch_posted_world.
  cbn [instance mainLooper gestureCallbacks primaryClip serviceCalls
       promiseCalls].
  erewrite (mainLoop_runs_oldest r2 []) by reflexivity.
  cbn [runRunnable r2]. rewrite dispatch_posted_world.
  cbn [instance mainLooper gestureCallbacks primaryClip serviceCalls
       promiseCalls].
  rewrite <- !app_assoc. repeat split.
Qed.

End PostedCommandFacts.

(** ** The module's other methods *)

Section ModuleFacts.
Context {N : Numbers} {F : Framework}.
Variable appContext : ReactApplicationContext.

(** X7. The status query answers with the connection as it stands: [true]
    right after the service connected, [false] right after it was
    destroyed, and in any world it only resolves its promise. *)
Theorem running_query_follows_connection
    (service : Service) (p : Promise) (w : World) :
  callsOn p
    (run appContext
       [ServiceConnected service;
        Invoke Automation.isAccessibilityServiceRunning_ p] w)
  = callsOn p w ++ [Resolved true] /\
  callsOn p
    (run appContext
       [ServiceDestroyed; Invoke Automation.isAccessibilityServiceRunning_ p]
       w)
  = callsOn p w ++ [Resolved false] /\
  onlySettles p
    (Resolved match instance w with Some _ => true | None => false end)
    w (run appContext [Invoke Automation.isAccessibilityServiceRunning_ p] w).
Proof.
  destruct w as [i q g c sc pc].
  repeat split; cbn -[callsOn]; try apply callsOn_snoc; reflexivity.
Qed.

Lemma gesture_or_paste (call : Automation.NativeCall) (p : Promise) :
  needsService call = true ->
  isPasteEvent (Invoke call p) = true \/
  (isPasteEvent (Invoke call p) = false /\
   (gestureOf call = None \/ exists gesture, gestureOf call = Some gesture)).
Proof.
  intros Hn. destruct call; try discriminate.
  - right. split; [reflexivity |].
    destruct (gestureOf _); [right; eauto | now left].
  - right. split; [reflexivity |].
    destruct (gestureOf _); [right; eauto | now left].
  - now left.
Qed.

(** X8. The status query and the commands agree. In any world, either the
    query resolves [false] and a tap, swipe or paste called then is rejected
    with [SERVICE_NOT_RUNNING] and nothing is posted; or the query resolves
    [true], and the command is posted without touching its promise, unless
    it is a tap or swipe whose gesture cannot be built: then the method
    throws and everything stays as it was. *)
Theorem running_query_predicts_rejection
    (call : Automation.NativeCall) (p p' : Promise) (w : World) :
  needsService call = true ->
  let asked := run appContext
                 [Invoke Automation.isAccessibilityServiceRunning_ p] w in
  let called := run appContext [Invoke call p'] w in
  (callsOn p asked = callsOn p w ++ [Resolved true] /\
   ((promiseCalls called = promiseCalls w /\
     (isPasteEvent (Invoke call p') = true \/ gestureOf call <> None) /\
     exists r, mainLooper called = mainLooper w ++ [r] /\
               runnablePromise r = p') \/
    (called = w /\
     isPasteEvent (Invoke call p') = false /\
     gestureOf call = None /\
     exists e, fst (invokeNative appContext call p' w) = Thrown e))) \/
  (callsOn p asked = callsOn p w ++ [Resolved false] /\
   mainLooper called = mainLooper w /\
   promiseCalls called
   = promiseCalls w
       ++ [(p', Rejected "SERVICE_NOT_RUNNING"
                  AutomationModule.SERVICE_NOT_RUNNING_MESSAGE)]).
Proof.
  intros Hn asked called. subst asked called. cbn [run].
  rewrite !step_invoke.
  destruct (instance w) as [service |] eqn:Hi.
  - left. split.
    { destruct w as [i q g c sc pc]. cbn in Hi. subst i.
      cbn -[callsOn]. apply callsOn_snoc. }
    destruct (gesture_or_paste call p' Hn)
      as [Hp | [Hp [Hg | [gesture Hg]]]].
    + left. destruct call; try discriminate.
      rewrite (invoke_paste_posts appContext _ _ _ _ Hi).
      destruct w as [i q g c sc pc]. cbn.
      split; [reflexivity |]. split; [now left |].
      eexists. split; reflexivity.
    + right.
      destruct (invoke_gesture_throws appContext call service p' w Hi Hn Hp Hg)
        as [e He].
      rewrite He. cbn [fst snd]. repeat split; eauto.
    + left. rewrite (invoke_gesture_posts appContext _ _ _ _ _ Hi Hg).
      destruct w as [i q g c sc pc]. cbn.
      split; [reflexivity |].
      split; [right; rewrite Hg; discriminate |].
      eexists. split; reflexivity.
  - right. rewrite (invoke_without_service appContext call p' w Hi Hn).
    destruct w as [i q g c sc pc]. cbn in Hi. subst i.
    cbn -[callsOn]. repeat split. apply callsOn_snoc.
Qed.

(** X9. Launching a package that does not resolve to a launch intent
    resolves [false] and starts no activity. *)
Theorem openApp_unknown_package
    (packageName : string) (p : Promise) (w : World) :
  getLaunchIntentForPackage appContext packageName = Returned None ->
  onlySettles p (Resolved false) w
    (run appContext [Invoke (Automation.openApp_ packageName) p] w).
Proof.
  intros Hl. cbn [run]. rewrite step_invoke. cbn [invokeNative].
  unfold AutomationModule.openApp, bind.
  rewrite Hl. destruct w as [i q g c sc pc]. repeat split.
Qed.

Lemma new_task_bit (flags : Z) (n : Z) :
  Z.testbit (Z.lor flags FLAG_ACTIVITY_NEW_TASK) n
  = Z.testbit flags n || (n =? 28).
Proof.
  rewrite Z.lor_spec. f_equal.
  change FLAG_ACTIVITY_NEW_TASK with (2 ^ 28).
  destruct (Z.eqb_spec n 28) as [-> | Hne].
  - reflexivity.
  - destruct (Z.neg_nonneg_cases n) as [Hneg | Hpos].
    + now apply Z.testbit_neg_r.
    + now apply Z.pow2_bits_false.
Qed.

(** X10. Launching a package that resolves starts its launch intent once,
    with the new-task flag added to the flags it came with (bit 28 set, every
    other bit as before, the action unchanged), and resolves [true]; adding
    the flag to an intent that has it changes nothing. None of this asks
    whether the service is connected. *)
Theorem openApp_starts_in_new_task
    (packageName : string) (launchIntent : Intent) (p : Promise) (w : World) :
  getLaunchIntentForPackage appContext packageName
  = Returned (Some launchIntent) ->
  let started := AutomationModule.addFlags launchIntent FLAG_ACTIVITY_NEW_TASK in
  startActivityThrows appContext started = None ->
  let w' := run appContext [Invoke (Automation.openApp_ packageName) p] w in
  callsOn p w' = callsOn p w ++ [Resolved true] /\
  since w w' = [CallStartActivity started] /\
  mainLooper w' = mainLooper w /\
  intentAction started = intentAction launchIntent /\
  (forall n, Z.testbit (intentFlags started) n
             = Z.testbit (intentFlags launchIntent) n || (n =? 28)) /\
  AutomationModule.addFlags started FLAG_ACTIVITY_NEW_TASK = started.
Proof.
  intros Hl started Hs w'. subst w'.
  cbn [run step invokeNative].
  unfold AutomationModule.openApp, startActivity, bind, logCall, ret.
  rewrite Hl. fold started. rewrite Hs.
  destruct w as [i q g c sc pc]. cbn [snd mainLooper].
  split; [apply callsOn_snoc |].
  split; [apply since_mk |].
  split; [reflexivity |].
  split; [reflexivity |].
  split; [intros n; apply new_task_bit |].
  unfold started, AutomationModule.addFlags. cbn [intentAction intentFlags].
  f_equal. rewrite <- Z.lor_assoc. now rewrite Z.lor_diag.
Qed.

(** X11. Opening the accessibility settings starts exactly the settings
    intent with the new-task flag and resolves [true] when the activity
    starts, whether or not the service is connected. *)
Theorem openAccessibilitySettings_starts_settings (p : Promise) (w : World) :
  let intent := {| intentAction := ACTION_ACCESSIBILITY_SETTINGS;
                   intentFlags := FLAG_ACTIVITY_NEW_TASK |} in
  startActivityThrows appContext intent = None ->
  let w' := run appContext [Invoke Automation.openAccessibilitySettings_ p] w in
  callsOn p w' = callsOn p w ++ [Resolved true] /\
  since w w' = [CallStartActivity intent] /\
  instance w' = instance w /\
  mainLooper w' = mainLooper w.
Proof.
  intros intent Hs w'. subst w'.
  cbn [run step invokeNative].
  unfold AutomationModule.openAccessibilitySettings, startActivity, bind,
    logCall, ret.
  fold intent. rewrite Hs. destruct w as [i q g c sc pc].
  cbn [snd mainLooper instance].
  split; [apply callsOn_snoc |]. split; [apply since_mk |].
  split; reflexivity.
Qed.

(** X12. Every method of the module ends in one of three ways and never in
    two of them: it calls the promise once before it returns, and posts
    nothing; or it posts one runnable that carries the promise, and calls
    nothing; or it throws and changes nothing. It posts only for a tap, swipe
    or paste with the service connected, and throws only for a tap or swipe,
    with the service connected, whose gesture cannot be built. *)
Theorem native_call_settles_or_posts
    (call : Automation.NativeCall) (p : Promise) (w : World) :
  let w' := run appContext [Invoke call p] w in
  (exists s,
     fst (invokeNative appContext call p w) = Returned tt /\
     promiseCalls w' = promiseCalls w ++ [(p, s)] /\
     mainLooper w' = mainLooper w) \/
  (exists r service,
     fst (invokeNative appContext call p w) = Returned tt /\
     mainLooper w' = mainLooper w ++ [r] /\
     runnablePromise r = p /\
     promiseCalls w' = promiseCalls w /\
     needsService call = true /\
     instance w = Some service) \/
  (exists e service,
     fst (invokeNative appContext call p w) = Thrown e /\
     w' = w /\
     needsService call = true /\
     isPasteEvent (Invoke call p) = false /\
     gestureOf call = None /\
     instance w = Some service).
Proof.
  cbv zeta. cbn [run]. rewrite step_invoke.
  destruct (needsService call) eqn:Hn.
  - destruct (instance w) as [service |] eqn:Hi.
    + destruct (gesture_or_paste call p Hn)
        as [Hp | [Hp [Hg | [gesture Hg]]]].
      * right. left. destruct call; try discriminate.
        exists (RunPaste service text (ResolveWith p)), service.
        destruct w as [i q g c sc pc]. cbn in Hi. subst i.
        repeat split.
      * right. right.
        destruct (invoke_gesture_throws appContext call service p w
                    Hi Hn Hp Hg) as [e He].
        exists e, service. rewrite He. repeat split; assumption.
      * right. left.
        exists (RunDispatch service gesture (ResolveWith p)), service.
        rewrite (invoke_gesture_posts appContext _ _ _ _ _ Hi Hg).
        split; [| destruct w; repeat split].
        destruct w as [i q g c sc pc]. cbn in Hi. subst i.
        destruct call; try discriminate; cbn [gestureOf] in Hg;
          cbn [invokeNative];
          unfold AutomationModule.tap, AutomationModule.swipe,
            AutomationService.tap, AutomationService.swipe,
            AutomationService.withService, bind;
          cbn [instance];
          match type of Hg with
          | match ?b with _ => _ end = _ => destruct b; [| discriminate]
          end;
          reflexivity.
    + left. eexists.
      rewrite (invoke_without_service appContext call p w Hi Hn).
      destruct w as [i q g c sc pc]. cbn in Hi. subst i.
      destruct call; try discriminate; repeat split.
  - left. destruct w as [i q g c sc pc].
    destruct call; try discriminate; cbn [invokeNative].
    + eexists. cbn. repeat split.
    + unfold AutomationModule.openAccessibilitySettings, startActivity,
        bind, logCall, ret.
      destruct (startActivityThrows appContext _); eexists; cbn;
        repeat split.
    + unfold AutomationModule.openApp, startActivity, bind, logCall, ret.
      destruct (getLaunchIntentForPackage appContext packageName)
        as [[launchIntent |] | e];
        [destruct (startActivityThrows appContext _) | |];
        eexists; cbn; repeat split.
Qed.

End ModuleFacts.

(** ** More on pasting *)

Section MorePasteFacts.
Context {N : Numbers} {F : Framework}.
Variable appContext : ReactApplicationContext.

(** X13. Once the target refuses set-text the clipboard is overwritten with
    the text, whether or not the paste that follows is accepted: a paste
    that fails and resolves [false] has still replaced what the clipboard
    held. The target is asked to paste with the new clip in place. *)
Theorem refused_set_text_overwrites_clipboard
    (service : Service) (text : string) (p : Promise) (w : World)
    (target : AccessibilityNodeInfo) :
  focusedTarget service = Some target ->
  acceptsSetText target text = false ->
  let clip := newPlainText "automation" text in
  let w' := snd (runRunnable (RunPaste service text (ResolveWith p)) w) in
  primaryClip w' = Some clip /\
  callsOn p w' = callsOn p w ++ [Resolved (acceptsPaste target (Some clip))].
Proof.
  intros Ht Hs clip w'. subst w'. cbn [runRunnable].
  rewrite pasteInternal_posted_world, Ht. cbv zeta. rewrite Hs.
  destruct w as [i q g c sc pc]. split; [reflexivity | apply callsOn_snoc].
Qed.

(** X14. A paste works on one node throughout: after the focus lookups
    (at most two) it looks nothing up again, and every action it performs
    is on the node the lookups gave. *)
Theorem paste_acts_on_one_target
    (service : Service) (text : string) (p : Promise) (w : World)
    (target : AccessibilityNodeInfo) :
  focusedTarget service = Some target ->
  let w' := snd (runRunnable (RunPaste service text (ResolveWith p)) w) in
  exists attempts,
    since w w' = focusLookups service ++ attempts /\
    (List.length (focusLookups service) <= 2)%nat /\
    attempts <> [] /\
    forallb (onTarget target) attempts = true.
Proof.
  intros Ht w'. subst w'. cbn [runRunnable].
  rewrite pasteInternal_posted_world, Ht. cbv zeta.
  assert (Hlen : (List.length (focusLookups service) <= 2)%nat).
  { unfold focusLookups. destruct (rootInActiveWindow service) as [root |];
      [destruct (inputFocus root) |]; cbn; lia. }
  destruct w as [i q g c sc pc].
  destruct (acceptsSetText target text); rewrite since_mk;
    eexists; (split; [reflexivity |]); (split; [exact Hlen |]);
    (split; [discriminate |]); cbn; rewrite Nat.eqb_refl; reflexivity.
Qed.

(** X15. A paste command calls its promise exactly once, with a boolean, and
    nothing that happens afterwards calls it again: unlike a gesture, it
    depends on no report. The boolean is [true] exactly when there is a
    target that accepts set-text or, failing that, paste. *)
Theorem paste_resolves_once_for_good
    (text : string) (service : Service) (p : Promise) (later : list Event)
    (w : World) :
  instance w = Some service ->
  unheld p w ->
  Forall (fun e => eventPromise e <> Some p) later ->
  exists b,
    callsOn p
      (run appContext
         (commandSchedule w (Automation.pasteText_ text) p [] ++ later) w)
    = callsOn p w ++ [Resolved b] /\
    (b = true <->
     exists target,
       focusedTarget service = Some target /\
       (acceptsSetText target text = true \/
        acceptsPaste target (Some (newPlainText "automation" text)) = true)).
Proof.
  intros Hi [Hq Hcb] Hlater.
  pose proof (paste_command_calls appContext text service p w Hi Hq) as Hcalls.
  rewrite run_app.
  set (w3 := run appContext
               (commandSchedule w (Automation.pasteText_ text) p []) w) in *.
  assert (Hheld : heldOnlyAt p (fun _ => false) w3).
  { subst w3. unfold commandSchedule. cbn [map]. rewrite app_nil_r.
    cbn [run]. rewrite step_invoke, (invoke_paste_posts appContext _ _ _ _ Hi).
    rewrite run_app.
    set (r := RunPaste service text (ResolveWith p)).
    set (w1 := snd (post r w)).
    assert (Hq1 : mainLooper w1 = mainLooper w ++ [r]) by reflexivity.
    destruct (main_looper_drains appContext p (mainLooper w) [r] Hq w1 Hq1)
      as (Hl & _ & _ & _).
    pose proof (main_looper_drains_callbacks appContext p (mainLooper w) [r]
                  Hq w1 Hq1 Hcb) as Hg.
    set (w2 := run appContext
                 (repeat MainLoop (List.length (mainLooper w))) w1) in *.
    cbn [run step]. rewrite (mainLoop_runs_oldest r [] w2 Hl).
    cbn [runRunnable r]. rewrite pasteInternal_posted_world.
    apply unheld_heldOnlyAt.
    destruct (focusedTarget service) as [target |];
      [cbv zeta; destruct (acceptsSetText target text) |];
      (split; [constructor | exact Hg]). }
  destruct (quiet_run appContext p (fun _ => false) later) with (w := w3)
    as [_ Hc].
  - eapply Forall_impl; [| exact Hlater].
    intros e He. split; [exact He | reflexivity].
  - exact Hheld.
  - rewrite Hc, Hcalls. eexists. split; [reflexivity |].
    destruct (focusedTarget service) as [target |].
    + destruct (acceptsSetText target text) eqn:Hs.
      * split; [intros _; exists target; auto | reflexivity].
      * split.
        -- intros Hp. exists target. auto.
        -- intros (t & Ht & [Hs' | Hp]); injection Ht as <-;
             [rewrite Hs in Hs'; discriminate | exact Hp].
    + split; [discriminate | intros (t & Ht & _); discriminate].
Qed.

End MorePasteFacts.

(** ** The facade on Android *)

Section MoreFacadeFacts.
Context {N : Numbers} {F : Framework}.

(** X16. The facade forwards exactly when the platform is Android and the
    native module is defined; on Android without the module it rejects like
    anywhere else. When it forwards, it passes the arguments on unchanged,
    with 80 for an omitted tap duration and 150 for an omitted swipe
    duration. *)
Theorem facade_forwards_on_android_only
    (host : Automation.Host) (op : Automation.Operation) :
  ((exists call, Automation.perform host op = Automation.Follows call) <->
   Automation.PlatformOS host = "android" /\
   Automation.NativeModules_AutomationModule host = true) /\
  (forall call,
     Automation.perform host op = Automation.Follows call ->
     call
     = match op with
       | Automation.OpIsServiceRunning =>
           Automation.isAccessibilityServiceRunning_
       | Automation.OpOpenAccessibilitySettings =>
           Automation.openAccessibilitySettings_
       | Automation.OpOpenApp packageName => Automation.openApp_ packageName
       | Automation.OpTap x y (Some d) => Automation.tap_ x y d
       | Automation.OpTap x y None => Automation.tap_ x y (number 80)
       | Automation.OpSwipe sx sy ex ey (Some d) =>
           Automation.swipe_ sx sy ex ey d
       | Automation.OpSwipe sx sy ex ey None =>
           Automation.swipe_ sx sy ex ey (number 150)
       | Automation.OpPasteText text => Automation.pasteText_ text
       end).
Proof.
  assert (Hnative : Automation.nativeModule host = true <->
                    Automation.PlatformOS host = "android" /\
                    Automation.NativeModules_AutomationModule host = true).
  { unfold Automation.nativeModule.
    destruct (String.eqb_spec (Automation.PlatformOS host) "android")
      as [E | E]; split; try tauto; discriminate. }
  assert (Hasync : forall call,
             Automation.async host call
             = if Automation.nativeModule host
               then Automation.Follows call
               else Automation.RejectsWith Automation.UNAVAILABLE).
  { intros call. unfold Automation.async, Automation.ensureAvailable.
    destruct (Automation.nativeModule host); reflexivity. }
  split.
  - rewrite <- Hnative. split.
    + intros [call Hc].
      destruct (Automation.nativeModule host) eqn:Hm; [reflexivity |].
      destruct op as [| | ? | ? ? [?|] | ? ? ? ? [?|] | ?];
        cbn in Hc;
        unfold Automation.isServiceRunning,
          Automation.openAccessibilitySettings, Automation.openApp,
          Automation.tap, Automation.swipe, Automation.pasteText in Hc;
        rewrite Hasync in Hc; discriminate.
    + intros Hm.
      destruct op as [| | ? | ? ? [?|] | ? ? ? ? [?|] | ?];
        cbn;
        unfold Automation.isServiceRunning,
          Automation.openAccessibilitySettings, Automation.openApp,
          Automation.tap, Automation.swipe, Automation.pasteText;
        rewrite Hasync, Hm; eexists; reflexivity.
  - intros call Hc.
    destruct op as [| | ? | ? ? [?|] | ? ? ? ? [?|] | ?];
      cbn in Hc;
      unfold Automation.isServiceRunning,
        Automation.openAccessibilitySettings, Automation.openApp,
        Automation.tap, Automation.swipe, Automation.pasteText in Hc;
      rewrite Hasync in Hc;
      destruct (Automation.nativeModule host); try discriminate;
      injection Hc as <-; reflexivity.
Qed.

End MoreFacadeFacts.

(** ** The automation screen *)

Section HandlerFacts.
Context {N : Numbers} {F : Framework} {J : JsRuntime}.
Variable host : Automation.Host.

Lemma guarded_shape (tag : string) (op : Automation.Operation)
    (native : AppContent.Awaited)
    (onValue : bool -> list AppContent.UiEffect)
    (errorLabel errorStatus : string) :
  (forall value, exists text, onValue value = [AppContent.setStatusText text]
                 \/ onValue value = [AppContent.setServiceEnabled value;
                                     AppContent.setStatusText text]) ->
  exists middle,
    AppContent.guarded host tag op native onValue errorLabel errorStatus
    = AppContent.setBusyAction (Some tag) :: AppContent.await op
        :: middle ++ [AppContent.setBusyAction None] /\
    List.length (filter AppContent.isStatus middle) = 1%nat /\
    filter AppContent.isAwait middle = [] /\
    filter AppContent.isBusy middle = [].
Proof.
  intros Hv. unfold AppContent.guarded. cbn [app].
  destruct (AppContent.awaited host op native) as [value | error].
  - destruct (Hv value) as [text [E | E]]; rewrite E;
      eexists; (split; [reflexivity |]); repeat split.
  - eexists. split; [reflexivity |]. repeat split.
Qed.

(** X17. Off Android every handler shows the one alert that says so and does
    nothing else: it sets no busy flag, writes no status and calls no facade
    function. *)
Theorem handlers_only_alert_off_android
    (press : AppContent.Press) (native : AppContent.Awaited) :
  Automation.PlatformOS host <> "android" ->
  exists message,
    AppContent.handle host press native
    = [AppContent.Alert_alert "仅支持 Android" (Some message)].
Proof.
  intros Hos.
  assert (E : String.eqb (Automation.PlatformOS host) "android" = false)
    by now apply String.eqb_neq.
  destruct press; cbn [AppContent.handle];
    unfold AppContent.handleCheckService,
      AppContent.handleOpenAccessibilitySettings,
      AppContent.handleOpenTargetApp, AppContent.handleTap,
      AppContent.handleSwipe, AppContent.handlePaste,
      AppContent.ensureAndroid;
    rewrite E; cbn [negb]; eexists; reflexivity.
Qed.

(** X18. A handler either stops at an alert, or it sets the busy flag, calls
    one facade function, and clears the busy flag as its last step whatever
    the awaited promise settles to; in between it writes exactly one status
    text and calls nothing else. *)
Theorem handlers_clear_busy
    (press : AppContent.Press) (native : AppContent.Awaited) :
  (exists title message,
     AppContent.handle host press native
     = [AppContent.Alert_alert title message]) \/
  (exists tag op middle,
     AppContent.handle host press native
     = AppContent.setBusyAction (Some tag) :: AppContent.await op
         :: middle ++ [AppContent.setBusyAction None] /\
     List.length (filter AppContent.isStatus middle) = 1%nat /\
     filter AppContent.isAwait middle = [] /\
     filter AppContent.isBusy middle = []).
Proof.
  destruct press; cbn [AppContent.handle];
    unfold AppContent.handleCheckService,
      AppContent.handleOpenAccessibilitySettings,
      AppContent.handleOpenTargetApp, AppContent.handleTap,
      AppContent.handleSwipe, AppContent.handlePaste,
      AppContent.ensureAndroid;
    (destruct (String.eqb (Automation.PlatformOS host) "android");
     cbn [negb]; [| left; eexists; eexists; reflexivity]).
  - right. cbn [app].
    edestruct guarded_shape as (middle & E & H); [| rewrite E; eauto].
    intros value. eexists. right. reflexivity.
  - right. cbn [app].
    edestruct guarded_shape as (middle & E & H); [| rewrite E; eauto].
    intros value. eexists. left. reflexivity.
  - destruct (String.eqb (trim packageName) "");
      [left; eexists; eexists; reflexivity | right]. cbn [app].
    edestruct guarded_shape as (middle & E & H); [| rewrite E; eauto].
    intros value. eexists. left. reflexivity.
  - destruct (Number_isNaN (Number_ tapX) || Number_isNaN (Number_ tapY));
      [left; eexists; eexists; reflexivity | right]. cbn [app].
    edestruct guarded_shape as (middle & E & H); [| rewrite E; eauto].
    intros value. eexists. left. reflexivity.
  - cbn [map].
    destruct (existsb Number_isNaN _);
      [left; eexists; eexists; reflexivity | right]. cbn [app].
    edestruct guarded_shape as (middle & E & H); [| rewrite E; eauto].
    intros value. eexists. left. reflexivity.
  - right. cbn [app].
    edestruct guarded_shape as (middle & E & H); [| rewrite E; eauto].
    intros value. eexists. left. reflexivity.
Qed.

(** X19. On Android, input that cannot be used stops the handler at an alert
    before any facade function is called: a tap or swipe with a coordinate
    that is not a number, and a launch with a package name that is empty
    once trimmed. *)
Theorem unusable_input_stops_at_alert (native : AppContent.Awaited) :
  Automation.PlatformOS host = "android" ->
  (forall tapX tapY,
     Number_isNaN (Number_ tapX) = true \/ Number_isNaN (Number_ tapY) = true ->
     AppContent.handleTap host tapX tapY native
     = [AppContent.Alert_alert "请输入有效的点击坐标" None]) /\
  (forall sx sy ex ey,
     (exists s, In s [sx; sy; ex; ey] /\ Number_isNaN (Number_ s) = true) ->
     AppContent.handleSwipe host sx sy ex ey native
     = [AppContent.Alert_alert "请输入有效的滑动坐标" None]) /\
  (forall packageName,
     trim packageName = "" ->
     AppContent.handleOpenTargetApp host packageName native
     = [AppContent.Alert_alert "请输入目标包名" (Some "示例：com.example.app")]).
Proof.
  intros Hos.
  assert (E : String.eqb (Automation.PlatformOS host) "android" = true)
    by now apply String.eqb_eq.
  split; [| split].
  - intros tapX tapY Hnan.
    unfold AppContent.handleTap, AppContent.ensureAndroid.
    rewrite E. cbn [negb].
    assert (H : Number_isNaN (Number_ tapX) || Number_isNaN (Number_ tapY)
                = true).
    { apply orb_true_iff. exact Hnan. }
    rewrite H. reflexivity.
  - intros sx sy ex ey (s & Hin & Hnan).
    unfold AppContent.handleSwipe, AppContent.ensureAndroid.
    rewrite E. cbn [negb].
    assert (H : existsb Number_isNaN (map Number_ [sx; sy; ex; ey]) = true).
    { apply existsb_exists. exists (Number_ s). split; [| exact Hnan].
      now apply in_map. }
    rewrite H. reflexivity.
  - intros packageName Ht.
    unfold AppContent.handleOpenTargetApp, AppContent.ensureAndroid.
    rewrite E, Ht. reflexivity.
Qed.

End HandlerFacts.

Section TapFromScreenToService.
Context {N : Numbers} {F : Framework} {J : JsRuntime}.
Variable host : Automation.Host.
Variable appContext : ReactApplicationContext.

(** X20. A tap pressed on Android with usable coordinates goes to the native
    module with duration 90. With no service connected the native promise is
    rejected, and the screen logs the error and shows the permission
    message; the message of the [false] branch, which asks to check that
    accessibility is on, is what the screen shows when the service is
    connected, the gesture is built and the framework refuses it. Either way
    the busy flag is cleared. *)
Theorem tap_failure_messages
    (tapX tapY : string) (p : Promise) (w : World) :
  Automation.PlatformOS host = "android" ->
  Automation.NativeModules_AutomationModule host = true ->
  Number_isNaN (Number_ tapX) = false ->
  Number_isNaN (Number_ tapY) = false ->
  callsOn p w = [] ->
  let op := Automation.OpTap (Number_ tapX) (Number_ tapY) (Some (number 90)) in
  let call := Automation.tap_ (Number_ tapX) (Number_ tapY) (number 90) in
  Automation.perform host op = Automation.Follows call /\
  (instance w = None ->
   let native :=
     AppContent.Failed AutomationModule.SERVICE_NOT_RUNNING_MESSAGE in
   AppContent.settled (callsOn p (run appContext [Invoke call p] w))
   = Some native /\
   AppContent.handleTap host tapX tapY native
   = [AppContent.setBusyAction (Some "tap"); AppContent.await op;
      AppContent.console_error "下发点击手势失败";
      AppContent.setStatusText "发送点击失败，请检查权限。";
      AppContent.setBusyAction None]) /\
  (forall service gesture,
     instance w = Some service ->
     gestureOf call = Some gesture ->
     Forall (fun r => runnablePromise r <> p) (mainLooper w) ->
     acceptsGesture service (commandIndex w) = false ->
     let native := AppContent.Fulfilled false in
     AppContent.settled
       (callsOn p (run appContext (commandSchedule w call p []) w))
     = Some native /\
     AppContent.handleTap host tapX tapY native
     = [AppContent.setBusyAction (Some "tap"); AppContent.await op;
        AppContent.setStatusText "点击失败，请检查无障碍是否开启。";
        AppContent.setBusyAction None]).
Proof.
  intros Hos Hmod Hx Hy Hfresh op call.
  assert (E : String.eqb (Automation.PlatformOS host) "android" = true)
    by now apply String.eqb_eq.
  assert (Hperform : Automation.perform host op = Automation.Follows call).
  { cbn. unfold Automation.tap, Automation.async, Automation.ensureAvailable,
      Automation.nativeModule.
    rewrite E, Hmod. reflexivity. }
  assert (Hhandle : forall native,
             AppContent.handleTap host tapX tapY native
             = AppContent.guarded host "tap" op native
                 (fun ok =>
                    [AppContent.setStatusText
                       (if ok
                        then "已发送点击 (" ++ String_ (Number_ tapX) ++ ", "
                             ++ String_ (Number_ tapY)
                             ++ ")，确保目标界面已打开。"
                        else "点击失败，请检查无障碍是否开启。")])
                 "下发点击手势失败" "发送点击失败，请检查权限。").
  { intros native. unfold AppContent.handleTap, AppContent.ensureAndroid.
    rewrite E, Hx, Hy. reflexivity. }
  split; [exact Hperform | split].
  - intros Hi native. split.
    + cbn [run].
      rewrite step_invoke, (invoke_without_service appContext call p w Hi eq_refl).
      destruct w as [i q g c sc pc].
      cbn [reject settle snd instance mainLooper gestureCallbacks primaryClip
           serviceCalls promiseCalls].
      rewrite (callsOn_snoc p _ i q g c sc), Hfresh. reflexivity.
    + rewrite Hhandle. unfold AppContent.guarded, AppContent.awaited.
      rewrite Hperform. reflexivity.
  - intros service gesture Hi Hg Hq Hrefused native. split.
    + rewrite (command_calls appContext call _ service p [] w Hi Hg Hq),
        Hrefused, Hfresh.
      reflexivity.
    + rewrite Hhandle. unfold AppContent.guarded, AppContent.awaited.
      rewrite Hperform. reflexivity.
Qed.

End TapFromScreenToService.

(** ** More concrete runs *)

Lemma promise_called_only_by_its_command_witness :
  callsOn 5
    (run quietContext
       [Invoke (Automation.tap_ (N := integers) 1 1 10) 0; MainLoop;
        GestureCompleted 0; ServiceDestroyed]
       (idle (Some (serviceWith None true))))
  = [].
Proof.
  apply (promise_called_only_by_its_command (N := integers) (F := androidIntegers) quietContext 5
           [Invoke (Automation.tap_ (N := integers) 1 1 10) 0; MainLoop;
            GestureCompleted 0; ServiceDestroyed]
           (idle (Some (serviceWith None true)))).
  - split; constructor.
  - repeat constructor; discriminate.
Defined.

Lemma clipboard_kept_without_paste_witness :
  primaryClip
    (run quietContext
       [Invoke (Automation.tap_ (N := integers) 1 1 10) 0; MainLoop;
        GestureCancelled 0;
        Invoke (Automation.openApp_ (N := integers) "com.example") 1]
       (holding (newPlainText "note" "mine")
          (Some (serviceWith None true))))
  = Some (newPlainText "note" "mine").
Proof.
  apply (clipboard_kept_without_paste (N := integers) (F := androidIntegers) quietContext
           [Invoke (Automation.tap_ (N := integers) 1 1 10) 0; MainLoop;
            GestureCancelled 0;
            Invoke (Automation.openApp_ (N := integers) "com.example") 1]
           (holding (newPlainText "note" "mine")
              (Some (serviceWith None true)))).
  - constructor.
  - reflexivity.
Defined.

Lemma command_keeps_captured_service_witness :
  callsOn 0
    (run quietContext
       [Invoke (Automation.tap_ (N := integers) 1 1 10) 0;
        ServiceDestroyed; MainLoop; GestureCompleted 0]
       (idle (Some (serviceWith None true))))
  = [Resolved true].
Proof.
  apply (command_keeps_captured_service (N := integers) (F := androidIntegers) quietContext
           (Automation.tap_ (N := integers) 1 1 10)
           (tapAt 1 1 10)
           (serviceWith None true) 0 [ServiceDestroyed] [Completed]
           (idle (Some (serviceWith None true)))
           eq_refl eq_refl (Forall_nil _) eq_refl).
Defined.

Lemma accepted_gesture_waits_for_report_witness :
  let w := idle (Some (serviceWith None true)) in
  callsOn 0
    (run quietContext
       (commandSchedule w (Automation.tap_ (N := integers) 1 1 10) 0 []
          ++ [ServiceDestroyed;
              Invoke (Automation.tap_ (N := integers) 2 2 10) 9; MainLoop;
              GestureCompleted 1])
       w)
  = [].
Proof.
  intros w.
  apply (accepted_gesture_waits_for_report (N := integers) (F := androidIntegers) quietContext
           (Automation.tap_ (N := integers) 1 1 10)
           (tapAt 1 1 10)
           (serviceWith None true) 0
           [ServiceDestroyed;
            Invoke (Automation.tap_ (N := integers) 2 2 10) 9; MainLoop;
            GestureCompleted 1]
           w eq_refl eq_refl).
  - split; constructor.
  - reflexivity.
  - repeat constructor; discriminate.
Defined.

Lemma gestures_submitted_in_call_order_witness :
  serviceCalls
    (run quietContext
       [Invoke (Automation.tap_ (N := integers) 1 1 10) 0;
        Invoke (Automation.swipe_ (N := integers) 0 0 5 5 20) 1;
        MainLoop; MainLoop]
       (idle (Some (serviceWith None true))))
  = [CallDispatchGesture
       (tapAt 1 1 10);
     CallDispatchGesture
       (swipeAlong 0 0 5 5 20)].
Proof.
  apply (gestures_submitted_in_call_order (N := integers) (F := androidIntegers) quietContext
           (Automation.tap_ (N := integers) 1 1 10)
           (Automation.swipe_ (N := integers) 0 0 5 5 20)
           (tapAt 1 1 10)
           (swipeAlong 0 0 5 5 20)
           (serviceWith None true) 0 1
           (idle (Some (serviceWith None true)))
           eq_refl eq_refl eq_refl eq_refl).
Defined.

Lemma running_query_predicts_rejection_witness :
  callsOn 0
    (run quietContext
       [Invoke (Automation.isAccessibilityServiceRunning_ (N := integers)) 0]
       (idle None))
  = [Resolved false] /\
  promiseCalls
    (run quietContext [Invoke (Automation.pasteText_ (N := integers) "x") 1]
       (idle None))
  = [(1%nat, Rejected "SERVICE_NOT_RUNNING"
               AutomationModule.SERVICE_NOT_RUNNING_MESSAGE)].
Proof.
  destruct (running_query_predicts_rejection (N := integers) (F := androidIntegers) quietContext
              (Automation.pasteText_ (N := integers) "x") 0 1 (idle None)
              eq_refl) as [(H & _) | (Hq & _ & Hc)].
  - discriminate H.
  - split; [exact Hq | exact Hc].
Defined.

Lemma openApp_unknown_package_witness :
  onlySettles 0 (Resolved false) (idle None)
    (run quietContext
       [Invoke (Automation.openApp_ (N := integers) "com.missing") 0]
       (idle None)).
Proof.
  apply (openApp_unknown_package (N := integers) (F := androidIntegers) quietContext "com.missing"
           0 (idle None)).
  reflexivity.
Defined.

Lemma openApp_starts_in_new_task_witness :
  since (idle None)
    (run launchingContext
       [Invoke (Automation.openApp_ (N := integers) "com.example") 0]
       (idle None))
  = [CallStartActivity {| intentAction := "android.intent.action.MAIN";
                          intentFlags := 270532608 |}].
Proof.
  destruct (openApp_starts_in_new_task (N := integers) (F := androidIntegers) launchingContext
              "com.example"
              {| intentAction := "android.intent.action.MAIN";
                 intentFlags := 2097152 |}
              0 (idle None) eq_refl eq_refl) as (_ & Hs & _).
  exact Hs.
Defined.

Lemma openAccessibilitySettings_starts_settings_witness :
  callsOn 0
    (run quietContext
       [Invoke (Automation.openAccessibilitySettings_ (N := integers)) 0]
       (idle None))
  = [Resolved true].
Proof.
  destruct (openAccessibilitySettings_starts_settings (N := integers)
              quietContext 0 (idle None) eq_refl) as (Hc & _).
  exact Hc.
Defined.

Lemma refused_set_text_overwrites_clipboard_witness :
  let service := serviceWith (Some inertNode) true in
  let w := holding (newPlainText "note" "mine") (Some service) in
  let w' := snd (runRunnable (RunPaste service "hello" (ResolveWith 0)) w) in
  primaryClip w' = Some (newPlainText "automation" "hello") /\
  callsOn 0 w' = [Resolved false].
Proof.
  intros service w w'.
  apply (refused_set_text_overwrites_clipboard (N := integers) service
           "hello" 0 w inertNode); reflexivity.
Defined.

Lemma paste_acts_on_one_target_witness :
  let service := serviceWithAccessibilityFocus pasteOnlyNode in
  exists attempts,
    since (idle (Some service))
      (snd (runRunnable (RunPaste service "hello" (ResolveWith 0))
              (idle (Some service))))
    = [CallFindFocus FOCUS_INPUT; CallFindFocus FOCUS_ACCESSIBILITY]
        ++ attempts /\
    forallb (onTarget pasteOnlyNode) attempts = true.
Proof.
  intros service.
  destruct (paste_acts_on_one_target (N := integers) service "hello" 0
              (idle (Some service)) pasteOnlyNode eq_refl)
    as (attempts & Hs & _ & _ & Ha).
  exists attempts. split; [exact Hs | exact Ha].
Defined.

Lemma paste_resolves_once_for_good_witness :
  let service := serviceWith (Some pasteOnlyNode) true in
  let w := idle (Some service) in
  exists b,
    callsOn 0
      (run quietContext
         (commandSchedule w (Automation.pasteText_ (N := integers) "hello") 0
            []
            ++ [GestureCancelled 0; ServiceDestroyed; MainLoop])
         w)
    = [Resolved b].
Proof.
  intros service w.
  destruct (paste_resolves_once_for_good (N := integers) (F := androidIntegers) quietContext "hello"
              service 0 [GestureCancelled 0; ServiceDestroyed; MainLoop] w
              eq_refl) as (b & Hb & _).
  - split; constructor.
  - repeat constructor; discriminate.
  - exists b. exact Hb.
Defined.

Lemma facade_forwards_on_android_only_witness :
  Automation.perform androidHost (Automation.OpTap (N := integers) 1 2 None)
  = Automation.Follows (Automation.tap_ (N := integers) 1 2 80).
Proof.
  destruct (facade_forwards_on_android_only (N := integers) androidHost
              (Automation.OpTap (N := integers) 1 2 None)) as [[_ Hf] Hcall].
  destruct (Hf (conj eq_refl eq_refl)) as [call Hc].
  rewrite Hc. f_equal. exact (Hcall call Hc).
Defined.

Lemma handlers_only_alert_off_android_witness :
  exists message,
    AppContent.handle (J := decimalRuntime)
      {| Automation.PlatformOS := "ios";
         Automation.NativeModules_AutomationModule := false |}
      (AppContent.PressTap "540" "1200") (AppContent.Fulfilled true)
    = [AppContent.Alert_alert "仅支持 Android" (Some message)].
Proof.
  apply (handlers_only_alert_off_android (J := decimalRuntime)
           {| Automation.PlatformOS := "ios";
              Automation.NativeModules_AutomationModule := false |}
           (AppContent.PressTap "540" "1200") (AppContent.Fulfilled true)).
  discriminate.
Defined.

Lemma unusable_input_stops_at_alert_witness :
  AppContent.handleTap (J := decimalRuntime) androidHost "abc" "1200"
    (AppContent.Fulfilled true)
  = [AppContent.Alert_alert "请输入有效的点击坐标" None] /\
  AppContent.handleSwipe (J := decimalRuntime) androidHost
    "200" "1200" "200" "6oo" (AppContent.Fulfilled true)
  = [AppContent.Alert_alert "请输入有效的滑动坐标" None] /\
  AppContent.handleOpenTargetApp (J := decimalRuntime) androidHost "   "
    (AppContent.Fulfilled true)
  = [AppContent.Alert_alert "请输入目标包名" (Some "示例：com.example.app")].
Proof.
  destruct (unusable_input_stops_at_alert (J := decimalRuntime) androidHost
              (AppContent.Fulfilled true) eq_refl) as (Htap & Hswipe & Happ).
  split; [| split].
  - apply Htap. left. reflexivity.
  - apply Hswipe. exists "6oo". split; [cbn; tauto | reflexivity].
  - apply Happ. reflexivity.
Defined.

Lemma tap_failure_messages_witness :
  AppContent.settled
    (callsOn 0
       (run quietContext
          [Invoke (Automation.tap_ (N := decimals) (Some 540) (Some 1200)
                     (Some 90)) 0]
          (decimalIdle None)))
  = Some (AppContent.Failed AutomationModule.SERVICE_NOT_RUNNING_MESSAGE) /\
  AppContent.handleTap (J := decimalRuntime) androidHost "540" "1200"
    (AppContent.Fulfilled false)
  = [AppContent.setBusyAction (Some "tap");
     AppContent.await
       (Automation.OpTap (N := decimals) (Some 540) (Some 1200)
          (Some (Some 90)));
     AppContent.setStatusText "点击失败，请检查无障碍是否开启。";
     AppContent.setBusyAction None].
Proof.
  destruct (tap_failure_messages (J := decimalRuntime) androidHost
              quietContext "540" "1200" 0 (decimalIdle None)
              eq_refl eq_refl eq_refl eq_refl eq_refl)
    as (_ & Habsent & _).
  destruct (tap_failure_messages (J := decimalRuntime) androidHost
              quietContext "540" "1200" 0
              (decimalIdle (Some (serviceWith None false)))
              eq_refl eq_refl eq_refl eq_refl eq_refl)
    as (_ & _ & Hrefused).
  split.
  - exact (proj1 (Habsent eq_refl)).
  - exact (proj2 (Hrefused (serviceWith None false) _ eq_refl eq_refl
                    (Forall_nil _) eq_refl)).
Defined.

(** * The paste command, from the call to its end *)

Section PasteCommandFacts.
Context {N : Numbers} {F : Framework}.
Variable appContext : ReactApplicationContext.

Lemma since_same_calls (w0 w1 w' : World) :
  serviceCalls w0 = serviceCalls w1 -> since w0 w' = since w1 w'.
Proof. intros E. unfold since. now rewrite E. Qed.

(** [pasteText] with the service connected posts the paste runnable; once
    the main looper has run what was posted before, that runnable is the one
    waiting, the promise has not been called, and the next run of the looper
    is the runnable's body. *)
Lemma paste_command_reaches
    (text : string) (service : Service) (p : Promise) (w : World) :
  instance w = Some service ->
  Forall (fun r => runnablePromise r <> p) (mainLooper w) ->
  let call := Automation.pasteText_ text in
  let reached :=
    run appContext
      (Invoke call p :: repeat MainLoop (List.length (mainLooper w))) w in
  let w' := run appContext (commandSchedule w call p []) w in
  callsOn p reached = callsOn p w /\
  mainLooper reached = [RunPaste service text (ResolveWith p)] /\
  (mainLooper w = [] -> primaryClip reached = primaryClip w) /\
  exists w0,
    w' = snd (AutomationService.pasteInternal_posted
                service text (ResolveWith p) w0) /\
    serviceCalls w0 = serviceCalls reached /\
    promiseCalls w0 = promiseCalls reached /\
    primaryClip w0 = primaryClip reached.
Proof.
  intros Hi Hq call reached w'.
  set (r := RunPaste service text (ResolveWith p)).
  assert (Er : reached
               = run appContext (repeat MainLoop (List.length (mainLooper w)))
                   (snd (post r w))).
  { unfold reached, call. cbn [run].
    rewrite step_invoke, (invoke_paste_posts appContext _ _ _ _ Hi).
    reflexivity. }
  assert (Hq1 : mainLooper (snd (post r w)) = mainLooper w ++ [r])
    by reflexivity.
  destruct (main_looper_drains appContext p (mainLooper w) [r] Hq _ Hq1)
    as (Hl & _ & Hc & _).
  rewrite <- Er in Hl, Hc.
  assert (Ew : w' = run appContext [MainLoop] reached).
  { unfold w', reached, commandSchedule. cbn [map]. rewrite app_nil_r.
    change (Invoke call p
              :: repeat MainLoop (List.length (mainLooper w)) ++ [MainLoop])
      with ((Invoke call p :: repeat MainLoop (List.length (mainLooper w)))
              ++ [MainLoop]).
    apply run_app. }
  split; [exact Hc |]. split; [exact Hl |]. split.
  - intros Hidle. rewrite Er, Hidle. destruct w as [i q g c sc pc].
    reflexivity.
  - exists (mkWorld (instance reached) [] (gestureCallbacks reached)
              (primaryClip reached) (serviceCalls reached)
              (promiseCalls reached)).
    split; [| repeat split].
    rewrite Ew. cbn [run step].
    rewrite (mainLoop_runs_oldest r [] reached Hl). reflexivity.
Qed.

(** C2. A [pasteText] call with the service connected, run to its end, with
    a focused target: it succeeds through the paste action exactly when the
    target refused set-text and accepted paste; the promise is then resolved
    [true] and the clipboard holds the injected text; when both are refused
    the promise is resolved [false], after the refused paste. *)
Theorem paste_through_clipboard
    (service : Service) (text : string) (p : Promise) (w : World)
    (target : AccessibilityNodeInfo) :
  instance w = Some service ->
  Forall (fun r => runnablePromise r <> p) (mainLooper w) ->
  focusedTarget service = Some target ->
  let clip := newPlainText "automation" text in
  let call := Automation.pasteText_ text in
  let reached :=
    run appContext
      (Invoke call p :: repeat MainLoop (List.length (mainLooper w))) w in
  let w' := run appContext (commandSchedule w call p []) w in
  (succeedsVia ACTION_PASTE target p reached w' <->
   acceptsSetText target text = false /\
   acceptsPaste target (Some clip) = true) /\
  (acceptsSetText target text = false ->
   acceptsPaste target (Some clip) = true ->
   callsOn p w' = callsOn p w ++ [Resolved true] /\
   primaryClip w' = Some clip /\ clipText clip = text) /\
  (acceptsSetText target text = false ->
   acceptsPaste target (Some clip) = false ->
   callsOn p w' = callsOn p w ++ [Resolved false] /\
   exists before,
     since reached w'
     = before ++ [CallPerformAction (nodeId target) ACTION_PASTE]).
Proof.
  intros Hi Hq Ht clip call reached w'.
  destruct (paste_command_reaches text service p w Hi Hq)
    as (Hc & _ & _ & (w0 & Ew & Esc & Epc & _)).
  fold call reached w' in Hc, Ew, Esc, Epc.
  pose proof (paste_posted_through_clipboard service text p w0 target Ht) as H.
  cbv zeta in H. fold clip in H. rewrite <- Ew in H.
  unfold succeedsVia in *.
  rewrite (since_same_calls w0 reached w' Esc) in H.
  rewrite (callsOn_same_calls p reached w0 Epc) in H.
  destruct H as (Hiff & Hclip & Hboth).
  split; [exact Hiff |]. split.
  - intros Hs Hp. destruct (Hclip Hs Hp) as [Hcl Htext].
    destruct (proj2 Hiff (conj Hs Hp)) as [Hcalls _].
    rewrite Hc in Hcalls. repeat split; assumption.
  - intros Hs Hp. destruct (Hboth Hs Hp) as [Hcalls Hlast].
    rewrite Hc in Hcalls. split; assumption.
Qed.

(** C3. A [pasteText] call with the service connected, run to its end, with
    a focused target that accepts set-text: it succeeds through set-text,
    the promise is resolved [true], the clipboard is as the runnable found
    it (as it was at the call when nothing else was waiting), and the
    clipboard is never written. *)
Theorem paste_through_set_text
    (service : Service) (text : string) (p : Promise) (w : World)
    (target : AccessibilityNodeInfo) :
  instance w = Some service ->
  Forall (fun r => runnablePromise r <> p) (mainLooper w) ->
  focusedTarget service = Some target ->
  acceptsSetText target text = true ->
  let call := Automation.pasteText_ text in
  let reached :=
    run appContext
      (Invoke call p :: repeat MainLoop (List.length (mainLooper w))) w in
  let w' := run appContext (commandSchedule w call p []) w in
  succeedsVia (ACTION_SET_TEXT text) target p reached w' /\
  callsOn p w' = callsOn p w ++ [Resolved true] /\
  primaryClip w' = primaryClip reached /\
  (mainLooper w = [] -> primaryClip w' = primaryClip w) /\
  forall clip, ~ In (CallSetPrimaryClip clip) (since reached w').
Proof.
  intros Hi Hq Ht Hs call reached w'.
  destruct (paste_command_reaches text service p w Hi Hq)
    as (Hc & _ & Hidle & (w0 & Ew & Esc & Epc & Eclip)).
  fold call reached w' in Hc, Hidle, Ew, Esc, Epc, Eclip.
  pose proof (paste_posted_through_set_text service text p w0 target Ht Hs)
    as H.
  cbv zeta in H. rewrite <- Ew in H.
  unfold succeedsVia in *.
  rewrite (since_same_calls w0 reached w' Esc) in H.
  rewrite (callsOn_same_calls p reached w0 Epc) in H.
  rewrite Eclip in H.
  destruct H as ((Hcalls & Hlast) & Hclip & Hnever).
  split; [split; assumption |].
  split; [now rewrite <- Hc |].
  split; [exact Hclip |].
  split; [intros Hl; now rewrite Hclip, (Hidle Hl) | exact Hnever].
Qed.

(** C4. A [pasteText] call with the service connected, run to its end: the
    lookup asks for input focus first and uses the node found; it asks for
    accessibility focus only when there is no input focus; when there is
    neither, the promise is resolved [false], the clipboard is as the
    runnable found it, and no set-text, clipboard write or paste is
    attempted. *)
Theorem paste_target_lookup
    (service : Service) (text : string) (p : Promise) (w : World) :
  instance w = Some service ->
  Forall (fun r => runnablePromise r <> p) (mainLooper w) ->
  let call := Automation.pasteText_ text in
  let reached :=
    run appContext
      (Invoke call p :: repeat MainLoop (List.length (mainLooper w))) w in
  let w' := run appContext (commandSchedule w call p []) w in
  (forall root node,
     rootInActiveWindow service = Some root ->
     inputFocus root = Some node ->
     ~ In (CallFindFocus FOCUS_ACCESSIBILITY) (since reached w') /\
     exists rest,
       since reached w'
       = CallFindFocus FOCUS_INPUT
           :: CallPerformAction (nodeId node) (ACTION_SET_TEXT text) :: rest) /\
  (forall root node,
     rootInActiveWindow service = Some root ->
     inputFocus root = None ->
     accessibilityFocus root = Some node ->
     exists rest,
       since reached w'
       = CallFindFocus FOCUS_INPUT :: CallFindFocus FOCUS_ACCESSIBILITY
           :: CallPerformAction (nodeId node) (ACTION_SET_TEXT text) :: rest) /\
  ((forall root,
      rootInActiveWindow service = Some root ->
      inputFocus root = None /\ accessibilityFocus root = None) ->
   callsOn p w' = callsOn p w ++ [Resolved false] /\
   primaryClip w' = primaryClip reached /\
   (mainLooper w = [] -> primaryClip w' = primaryClip w) /\
   filter isInjection (since reached w') = []).
Proof.
  intros Hi Hq call reached w'.
  destruct (paste_command_reaches text service p w Hi Hq)
    as (Hc & _ & Hidle & (w0 & Ew & Esc & Epc & Eclip)).
  fold call reached w' in Hc, Hidle, Ew, Esc, Epc, Eclip.
  pose proof (paste_posted_target_lookup service text p w0) as H.
  cbv zeta in H. rewrite <- Ew in H.
  rewrite (since_same_calls w0 reached w' Esc) in H.
  rewrite (callsOn_same_calls p reached w0 Epc) in H.
  rewrite Eclip, Hc in H.
  destruct H as (Hinput & Hfallback & Hnone).
  split; [exact Hinput |]. split; [exact Hfallback |].
  intros Hneither. destruct (Hnone Hneither) as (Hcalls & Hclip & Hinj).
  split; [exact Hcalls |]. split; [exact Hclip |].
  split; [intros Hl; now rewrite Hclip, (Hidle Hl) | exact Hinj].
Qed.

End PasteCommandFacts.

(** * Errors as the caller sees them, for every operation *)

Section AllErrorFacts.
Context {N : Numbers} {F : Framework}.
Variable appContext : ReactApplicationContext.



End AllErrorFacts.

(** ** Concrete runs of the paste command and of the errors *)

Lemma paste_through_clipboard_witness :
  let service := serviceWith (Some pasteOnlyNode) true in
  let w' := run quietContext
              (commandSchedule (idle (Some service))
                 (Automation.pasteText_ (N := integers) "hello") 0 [])
              (idle (Some service)) in
  callsOn 0 w' = [Resolved true] /\
  primaryClip w' = Some (newPlainText "automation" "hello").
Proof.
  intros service w'.
  destruct (paste_through_clipboard (N := integers) (F := androidIntegers)
              quietContext service "hello" 0 (idle (Some service))
              pasteOnlyNode eq_refl (Forall_nil _) eq_refl)
    as (_ & Hclip & _).
  destruct (Hclip eq_refl eq_refl) as (Hcalls & Hc & _).
  split; [exact Hcalls | exact Hc].
Defined.

Lemma paste_through_set_text_witness :
  let service := serviceWith (Some editableNode) true in
  let w := holding (newPlainText "note" "mine") (Some service) in
  let w' := run quietContext
              (commandSchedule w
                 (Automation.pasteText_ (N := integers) "hello") 0 []) w in
  callsOn 0 w' = [Resolved true] /\
  primaryClip w' = Some (newPlainText "note" "mine").
Proof.
  intros service w w'.
  destruct (paste_through_set_text (N := integers) (F := androidIntegers)
              quietContext service "hello" 0 w editableNode
              eq_refl (Forall_nil _) eq_refl eq_refl)
    as (_ & Hcalls & _ & Hclip & _).
  split; [exact Hcalls | exact (Hclip eq_refl)].
Defined.

Lemma paste_target_lookup_witness :
  (let service := serviceWith (Some editableNode) true in
   let w := idle (Some service) in
   ~ In (CallFindFocus FOCUS_ACCESSIBILITY)
       (serviceCalls
          (run quietContext
             (commandSchedule w
                (Automation.pasteText_ (N := integers) "x") 0 []) w))) /\
  (let service := serviceWithAccessibilityFocus editableNode in
   let w := idle (Some service) in
   exists rest,
     serviceCalls
       (run quietContext
          (commandSchedule w
             (Automation.pasteText_ (N := integers) "x") 0 []) w)
     = CallFindFocus FOCUS_INPUT :: CallFindFocus FOCUS_ACCESSIBILITY
         :: CallPerformAction 1 (ACTION_SET_TEXT "x") :: rest) /\
  (let service := serviceWith None true in
   let w := idle (Some service) in
   callsOn 0
     (run quietContext
        (commandSchedule w
           (Automation.pasteText_ (N := integers) "x") 0 []) w)
   = [Resolved false]).
Proof.
  split; [| split].
  - intros service w.
    destruct (paste_target_lookup (N := integers) (F := androidIntegers)
                quietContext service "x" 0 w eq_refl (Forall_nil _))
      as (Hinput & _ & _).
    destruct (Hinput _ editableNode eq_refl eq_refl) as [Hno _]. exact Hno.
  - intros service w.
    destruct (paste_target_lookup (N := integers) (F := androidIntegers)
                quietContext service "x" 0 w eq_refl (Forall_nil _))
      as (_ & Hfallback & _).
    exact (Hfallback _ editableNode eq_refl eq_refl eq_refl).
  - intros service w.
    destruct (paste_target_lookup (N := integers) (F := androidIntegers)
                quietContext service "x" 0 w eq_refl (Forall_nil _))
      as (_ & _ & Hnone).
    apply Hnone. intros root Hroot. injection Hroot as <-.
    split; reflexivity.
Defined.



(** A tap at a coordinate below zero, with the service connected: the gesture
    cannot be built, the React method throws, and the promise is never
    called, so nothing the screen awaits ever settles. *)
Lemma tap_below_zero_is_thrown :
  let w := decimalIdle (Some (serviceWith None false)) in
  let call := Automation.tap_ (N := decimals) (Some (-5)) (Some 1200)
                (Some 90) in
  Number_ (JsRuntime := decimalRuntime) "-5" = Some (-5) /\
  gestureOf call = None /\
  fst (invokeNative quietContext call 0 w)
  = Thrown "Path bounds must not be negative" /\
  AppContent.settled
    (callsOn 0 (run quietContext (commandSchedule w call 0 []) w))
  = None.
Proof. repeat split. Qed.
